(** * The tool-calling loop of the MCP client ([client.py])

    A shallow embedding of [MCPClient.process_query] and of the Python
    operations it applies to decoded JSON, followed by the properties of
    the orchestration loop: what is returned, which outbound calls are
    made and in which order, how failures are contained, and how the
    conversation history is linked.

    Modelling decisions.
    - Python values are the type [value]: what [json] decoding produces,
      plus [VObject] for objects of the collaborating libraries of which
      only the [repr] is observed.  A [dict] is an association list in
      insertion order, looked up from the front.  A [str] is a [string],
      one [ascii] per character.
    - A Python exception deriving from [Exception] is an [exn]; a
      computation that may raise returns an [outcome].  [KeyboardInterrupt]
      and the other exceptions outside [Exception] are not modelled.
    - The Tool Session and the HTTP client are oracles over a world state
      [W]; every call on them is recorded, in order and with its outcome, in
      the [calls] component of the run state.  The locals [messages] and
      [final_text] of [process_query] are components of the run state too,
      so that they can be inspected after the call.
    - The text Python gives to [repr] of a value, the text of the
      exceptions raised by the interpreter itself, and [json.loads] belong to
      the interpreter and its library: they are the fields of [Interp].
    - [print] and [traceback.format_exc] have no effect on the result and
      are left out; an expression evaluated for a [print] inside a [try]
      is kept when it can raise (line 162). *)

From Stdlib Require Import List String Ascii ZArith Bool Lia PeanoNat.
From Stdlib Require Import Floats.SpecFloat.
Import ListNotations.
Open Scope string_scope.
Open Scope list_scope.

Set Implicit Arguments.

Notation "a +++ b" := (String.append a b) (at level 60, right associativity).

(** ** Python values *)

#[warnings="-register-all"]
Inductive value : Type :=
| VNone
| VBool (b : bool)
| VInt (z : Z)
| VFloat (f : spec_float)
| VStr (s : string)
| VList (l : list value)
| VDict (d : list (string * value))
| VObject (repr : string).

(** Exceptions.  [Raised msg] is an exception raised by a collaborator or
    by a [raise] of the program, [msg] being its [str]; the others are
    raised by the interpreter on an operation the operand does not
    support. *)
Inductive exn : Type :=
| KeyError (key : value)
| IndexError (container : value)
| NotAContainer (v : value)
| NotIterable (v : value)
| NotSubscriptable (v : value)
| BadIndex (v key : value)
| NotSliceable (v : value)
| NoAttribute (v : value) (attr : string)
| JoinItem (i : nat) (v : value)
| Raised (msg : string).

Inductive outcome (A : Type) : Type :=
| Ok (a : A)
| Raise (e : exn).
Arguments Ok {A} a.
Arguments Raise {A} e.

Definition obind {A B} (o : outcome A) (k : A -> outcome B) : outcome B :=
  match o with
  | Ok a => k a
  | Raise e => Raise e
  end.

Notation "x <~ e ;; k" := (obind e (fun x => k))
  (at level 61, e at next level, right associativity).

(** What is fixed by the interpreter and its standard library. *)
Record Interp : Type := {
  py_repr : value -> string;
  builtin_message : exn -> string;
  json_loads : string -> outcome value
}.

(** [str(e)] *)
Definition exn_str (itp : Interp) (e : exn) : string :=
  match e with
  | Raised msg => msg
  | _ => builtin_message itp e
  end.

(** [str(v)], as an f-string applies it *)
Definition py_str (itp : Interp) (v : value) : string :=
  match v with
  | VStr s => s
  | _ => py_repr itp v
  end.

Definition newline : string := String "010"%char EmptyString.

(** ** Operations on values *)

Fixpoint lookup (k : string) (d : list (string * value)) : option value :=
  match d with
  | [] => None
  | (k', v) :: d' => if String.eqb k k' then Some v else lookup k d'
  end.

Fixpoint is_prefix (p s : string) : bool :=
  match p with
  | EmptyString => true
  | String a p' =>
      match s with
      | EmptyString => false
      | String b s' => Ascii.eqb a b && is_prefix p' s'
      end
  end.

Fixpoint is_substring (p s : string) : bool :=
  is_prefix p s ||
  match s with
  | EmptyString => false
  | String _ s' => is_substring p s'
  end.

Definition is_str (v : value) : bool :=
  match v with
  | VStr _ => true
  | _ => false
  end.

(** [k == v] for a [str] [k] *)
Definition str_equals (k : string) (v : value) : bool :=
  match v with
  | VStr s => String.eqb k s
  | _ => false
  end.

(** [bool(v)] *)
Definition truthy (v : value) : bool :=
  match v with
  | VNone => false
  | VBool b => b
  | VInt z => negb (z =? 0)%Z
  | VFloat (S754_zero _) => false
  | VFloat _ => true
  | VStr EmptyString => false
  | VStr _ => true
  | VList [] => false
  | VList _ => true
  | VDict [] => false
  | VDict _ => true
  | VObject _ => true
  end.

(** [k in v] *)
Definition py_in (k : string) (v : value) : outcome bool :=
  match v with
  | VDict d => Ok (match lookup k d with Some _ => true | None => false end)
  | VList l => Ok (existsb (str_equals k) l)
  | VStr s => Ok (is_substring k s)
  | _ => Raise (NotAContainer v)
  end.

(** [v[k]] for a [str] [k] *)
Definition getitem (v : value) (k : string) : outcome value :=
  match v with
  | VDict d =>
      match lookup k d with
      | Some x => Ok x
      | None => Raise (KeyError (VStr k))
      end
  | VList _ | VStr _ => Raise (BadIndex v (VStr k))
  | _ => Raise (NotSubscriptable v)
  end.

(** [v[0]] *)
Definition getitem0 (v : value) : outcome value :=
  match v with
  | VList (x :: _) => Ok x
  | VStr (String a _) => Ok (VStr (String a EmptyString))
  | VList [] | VStr EmptyString => Raise (IndexError v)
  | VDict _ => Raise (KeyError (VInt 0))
  | _ => Raise (NotSubscriptable v)
  end.

(** [v.get(k, default)] *)
Definition dict_get (v : value) (k : string) (default : value) : outcome value :=
  match v with
  | VDict d => Ok (match lookup k d with Some x => x | None => default end)
  | _ => Raise (NoAttribute v "get")
  end.

(** the items a [for] loop over [v] visits *)
Definition py_iter (v : value) : outcome (list value) :=
  match v with
  | VList l => Ok l
  | VStr s => Ok (map (fun a => VStr (String a EmptyString)) (list_ascii_of_string s))
  | VDict d => Ok (map (fun kv => VStr (fst kv)) d)
  | _ => Raise (NotIterable v)
  end.

(** [v[:n]] *)
Definition slice_to (n : nat) (v : value) : outcome value :=
  match v with
  | VList l => Ok (VList (firstn n l))
  | VStr s => Ok (VStr (substring 0 n s))
  | VDict _ => Raise (NotSliceable v)
  | _ => Raise (NotSubscriptable v)
  end.

Fixpoint join_items (i : nat) (l : list value) : outcome (list string) :=
  match l with
  | [] => Ok []
  | VStr s :: l' => r <~ join_items (S i) l' ;; Ok (s :: r)
  | v :: _ => Raise (JoinItem i v)
  end.

(** [sep.join(l)] *)
Definition str_join (sep : string) (l : list value) : outcome string :=
  ss <~ join_items 0 l ;; Ok (String.concat sep ss).

(** ** The collaborators *)

Record Tool : Type := {
  name : string;
  description : option string;
  inputSchema : value
}.

Record ListToolsResult : Type := { tools : list Tool }.

Record CallToolResult : Type := { content : value }.

Record Response : Type := {
  status_code : Z;
  text : string;
  json : outcome value
}.

Record ClientSession (W : Type) : Type := {
  list_tools : W -> W * outcome ListToolsResult;
  call_tool : value -> value -> W -> W * outcome CallToolResult
}.

Record AsyncClient (W : Type) : Type := {
  post : string -> value -> W -> W * outcome Response
}.

Record MCPClient (W : Type) : Type := {
  session : option (ClientSession W);
  http_client : AsyncClient W
}.

(** The outbound calls, as recorded. *)
Inductive event : Type :=
| ListTools (o : outcome ListToolsResult)
| CallTool (tool_name parsed_args : value) (o : outcome CallToolResult)
| Post (url : string) (payload : value) (o : outcome Response).

Record state (W : Type) : Type := {
  world : W;
  calls : list event;
  messages : list value;
  final_text : list value
}.

Definition initial_state {W} (w : W) : state W :=
  {| world := w; calls := []; messages := []; final_text := [] |}.

(** ** Computations: state passing with exceptions *)

Definition M (W A : Type) : Type := state W -> state W * outcome A.

Definition ret {W A} (a : A) : M W A := fun st => (st, Ok a).

Definition bind {W A B} (m : M W A) (k : A -> M W B) : M W B :=
  fun st =>
    match m st with
    | (st', Ok a) => k a st'
    | (st', Raise e) => (st', Raise e)
    end.

Notation "x <- e ;; k" := (bind e (fun x => k))
  (at level 61, e at next level, right associativity).
Notation "e ;; k" := (bind e (fun _ => k))
  (at level 61, right associativity).

Definition lift {W A} (o : outcome A) : M W A := fun st => (st, o).

(** [try: m  except Exception as e: handler e] *)
Definition try_except {W A} (m : M W A) (handler : exn -> M W A) : M W A :=
  fun st =>
    match m st with
    | (st', Ok a) => (st', Ok a)
    | (st', Raise e) => handler e st'
    end.

Fixpoint for_each {W A} (l : list A) (body : A -> M W unit) : M W unit :=
  match l with
  | [] => ret tt
  | x :: l' => body x ;; for_each l' body
  end.

Definition record {W} (w : W) (ev : event) (st : state W) : state W :=
  {| world := w; calls := calls st ++ [ev];
     messages := messages st; final_text := final_text st |}.

Definition get_messages {W} : M W (list value) := fun st => (st, Ok (messages st)).

Definition get_final_text {W} : M W (list value) := fun st => (st, Ok (final_text st)).

Definition set_messages {W} (l : list value) : M W unit :=
  fun st =>
    ({| world := world st; calls := calls st;
        messages := l; final_text := final_text st |}, Ok tt).

(** [messages.extend(l)] *)
Definition extend_messages {W} (l : list value) : M W unit :=
  fun st =>
    ({| world := world st; calls := calls st;
        messages := messages st ++ l; final_text := final_text st |}, Ok tt).

(** [final_text.append(v)] *)
Definition append_text {W} (v : value) : M W unit :=
  fun st =>
    ({| world := world st; calls := calls st;
        messages := messages st; final_text := final_text st ++ [v] |}, Ok tt).

(** ** [MCPClient.process_query] *)

(** the entry of [available_tools] built from one tool (lines 106-113) *)
Definition tool_entry (tool : Tool) : value :=
  VDict [("type", VStr "function");
         ("function",
          VDict [("name", VStr (name tool));
                 ("description",
                  match description tool with
                  | Some d => VStr d
                  | None => VNone
                  end);
                 ("parameters", inputSchema tool)])].

Definition user_message (query : string) : value :=
  VDict [("role", VStr "user"); ("content", VStr query)].

(** lines 171-175 *)
Definition assistant_call_message (tool_call : value) : value :=
  VDict [("role", VStr "assistant"); ("content", VNone);
         ("tool_calls", VList [tool_call])].

(** lines 176-180 *)
Definition tool_message (tool_id tool_result : value) : value :=
  VDict [("role", VStr "tool"); ("tool_call_id", tool_id);
         ("content", tool_result)].

(** the body of the initial request (lines 119-124) *)
Definition initial_payload (msgs available_tools : list value) : value :=
  VDict [("model", VStr "openai/gpt-3.5-turbo-1106");
         ("messages", VList msgs);
         ("tools", VList available_tools);
         ("max_tokens", VInt 1024)].

(** the body of a follow-up request (lines 185-189) *)
Definition followup_payload (msgs available_tools : list value) : value :=
  VDict [("model", VStr "anthropic/claude-3-sonnet");
         ("messages", VList msgs);
         ("tools", VList available_tools)].

Definition completions : string := "/chat/completions".

(** line 159 *)
Definition parse_arguments (itp : Interp) (tool_args : value) : outcome value :=
  match tool_args with
  | VStr s => json_loads itp s
  | _ => Ok tool_args
  end.

(** lines 164 and 168 *)
Definition tool_error_text (itp : Interp) (tool_name : value) (e : exn) : string :=
  "Error executing tool " +++ py_str itp tool_name +++ ": " +++ exn_str itp e.

Definition tool_fragment (itp : Interp) (tool_name tool_result : value) : string :=
  "[Tool " +++ py_str itp tool_name +++ " result: " +++ py_str itp tool_result +++ "]".

(** line 200 *)
Definition followup_error_text (itp : Interp) (e : exn) : string :=
  "Error in follow-up request: " +++ exn_str itp e.

(** What the follow-up [try] block does with the response it received
    (lines 191-198): the content to append, if any, or the exception. *)
Definition followup_content (response : Response) : outcome (option value) :=
  if negb (status_code response =? 200)%Z
  then Raise (Raised ("API error: " +++ text response))
  else
    response_data <~ json response ;;
    has_choices <~ py_in "choices" response_data ;;
    usable <~ (if has_choices
               then (c <~ getitem response_data "choices" ;; Ok (truthy c))
               else Ok false) ;;
    if usable
    then
      choices <~ getitem response_data "choices" ;;
      choice <~ getitem0 choices ;;
      next_message <~ dict_get choice "message" (VDict []) ;;
      c <~ dict_get next_message "content" VNone ;;
      if truthy c
      then (c' <~ getitem next_message "content" ;; Ok (Some c'))
      else Ok None
    else Ok None.

Section Orchestrator.

Context {W : Type} (itp : Interp) (self : MCPClient W).

Definition session_list_tools (s : ClientSession W) : M W ListToolsResult :=
  fun st =>
    let (w', o) := list_tools s (world st) in
    (record w' (ListTools o) st, o).

Definition session_call_tool (s : ClientSession W) (tool_name parsed_args : value)
  : M W CallToolResult :=
  fun st =>
    let (w', o) := call_tool s tool_name parsed_args (world st) in
    (record w' (CallTool tool_name parsed_args o) st, o).

Definition http_post (url : string) (payload : value) : M W Response :=
  fun st =>
    let (w', o) := post (http_client self) url payload (world st) in
    (record w' (Post url payload o) st, o).

(** lines 158-166: the value of [tool_result] *)
Definition invoke_tool (s : ClientSession W) (tool_name tool_args : value) : M W value :=
  try_except
    (parsed_args <- lift (parse_arguments itp tool_args) ;;
     result <- session_call_tool s tool_name parsed_args ;;
     let tool_result := content result in
     _ <- lift (slice_to 100 tool_result) ;;
     ret tool_result)
    (fun e => ret (VStr (tool_error_text itp tool_name e))).

(** lines 184-202 *)
Definition follow_up (available_tools : list value) : M W unit :=
  try_except
    (msgs <- get_messages ;;
     response <- http_post completions (followup_payload msgs available_tools) ;;
     c <- lift (followup_content response) ;;
     match c with
     | Some next_content => append_text next_content
     | None => ret tt
     end)
    (fun e => append_text (VStr (followup_error_text itp e))).

(** the body of the loop over the tool calls (lines 153-202) *)
Definition handle_tool_call (s : ClientSession W) (available_tools : list value)
    (tool_call : value) : M W unit :=
  tool_name <- lift (f <~ getitem tool_call "function" ;; getitem f "name") ;;
  tool_args <- lift (f <~ getitem tool_call "function" ;; getitem f "arguments") ;;
  tool_id <- lift (getitem tool_call "id") ;;
  tool_result <- invoke_tool s tool_name tool_args ;;
  append_text (VStr (tool_fragment itp tool_name tool_result)) ;;
  extend_messages [assistant_call_message tool_call;
                   tool_message tool_id tool_result] ;;
  follow_up available_tools.

(** lines 145-204, from the decoded body of the initial response *)
Definition answer_from (s : ClientSession W) (available_tools : list value)
    (response_data : value) : M W string :=
  choices <- lift (getitem response_data "choices") ;;
  choice <- lift (getitem0 choices) ;;
  assistant_message <- lift (dict_get choice "message" (VDict [])) ;;
  c <- lift (dict_get assistant_message "content" VNone) ;;
  (if truthy c
   then (c' <- lift (getitem assistant_message "content") ;; append_text c')
   else ret tt) ;;
  has_tool_calls <- lift (py_in "tool_calls" assistant_message) ;;
  (if has_tool_calls
   then (tool_calls <- lift (getitem assistant_message "tool_calls") ;;
         l <- lift (py_iter tool_calls) ;;
         for_each l (handle_tool_call s available_tools))
   else ret tt) ;;
  lines <- get_final_text ;;
  lift (str_join newline (filter truthy lines)).

(** lines 127-204, from the initial response *)
Definition process_response (s : ClientSession W) (available_tools : list value)
    (response : Response) : M W string :=
  if negb (status_code response =? 200)%Z
  then ret ("Error from OpenRouter API: " +++ text response)
  else
    response_data <- lift (json response) ;;
    has_error <- lift (py_in "error" response_data) ;;
    if has_error
    then (err <- lift (getitem response_data "error") ;;
          ret ("Error from OpenRouter: " +++ py_str itp err))
    else
      has_choices <- lift (py_in "choices" response_data) ;;
      invalid <- (if negb has_choices
                  then ret true
                  else (c <- lift (getitem response_data "choices") ;;
                        ret (negb (truthy c)))) ;;
      if invalid
      then ret "Invalid response received from API"
      else answer_from s available_tools response_data.

(** the [try] block of [process_query] (lines 105-204) *)
Definition process_query_try (s : ClientSession W) : M W string :=
  response <- session_list_tools s ;;
  let available_tools := map tool_entry (tools response) in
  msgs <- get_messages ;;
  response <- http_post completions (initial_payload msgs available_tools) ;;
  process_response s available_tools response.

Definition process_query (query : string) : M W string :=
  match session self with
  | None => ret "ERROR: Not connected to server"
  | Some s =>
      set_messages [user_message query] ;;
      try_except (process_query_try s)
        (fun e => ret ("Error processing query: " +++ exn_str itp e))
  end.

End Orchestrator.

(** ** An interpreter and a scripted world, for running the model

    [cpython] words [repr] and the interpreter's exceptions as CPython
    3.11 does on the values that occur in the examples of this file: [None],
    booleans, integers, lists, dicts, opaque objects, and strings of
    printable characters without quotes or backslashes.  Its decoder
    [loads] accepts JSON objects, arrays, strings with the one-letter
    escapes, integers and the three literals, as [json.loads] does; it
    raises on [\u] escapes, fractions and exponents, which are left out. *)

Module Cpython.

Definition digit (n : nat) : string :=
  String (ascii_of_nat (48 + n)) EmptyString.

Fixpoint decimal (fuel n : nat) : string :=
  match fuel with
  | O => digit 0
  | S fuel' =>
      if (n <? 10)%nat then digit n
      else decimal fuel' (n / 10) +++ digit (n mod 10)
  end.

Definition int_repr (z : Z) : string :=
  let n := Z.to_nat (Z.abs z) in
  (if (z <? 0)%Z then "-" else EmptyString) +++ decimal n n.

Definition float_repr (f : spec_float) : string :=
  match f with
  | S754_zero false => "0.0"
  | S754_zero true => "-0.0"
  | S754_infinity false => "inf"
  | S754_infinity true => "-inf"
  | S754_nan => "nan"
  | S754_finite _ _ _ => "<float>"
  end.

Fixpoint repr (v : value) : string :=
  match v with
  | VNone => "None"
  | VBool true => "True"
  | VBool false => "False"
  | VInt z => int_repr z
  | VFloat f => float_repr f
  | VStr s => "'" +++ s +++ "'"
  | VList l => "[" +++ String.concat ", " (map repr l) +++ "]"
  | VDict d =>
      "{" +++ String.concat ", "
                (map (fun kv => "'" +++ fst kv +++ "': " +++ repr (snd kv)) d)
          +++ "}"
  | VObject r => r
  end.

Definition type_name (v : value) : string :=
  match v with
  | VNone => "NoneType"
  | VBool _ => "bool"
  | VInt _ => "int"
  | VFloat _ => "float"
  | VStr _ => "str"
  | VList _ => "list"
  | VDict _ => "dict"
  | VObject _ => "object"
  end.

Definition message (e : exn) : string :=
  match e with
  | KeyError k => repr k
  | IndexError (VStr _) => "string index out of range"
  | IndexError _ => "list index out of range"
  | NotAContainer v => "argument of type '" +++ type_name v +++ "' is not iterable"
  | NotIterable v => "'" +++ type_name v +++ "' object is not iterable"
  | NotSubscriptable v => "'" +++ type_name v +++ "' object is not subscriptable"
  | BadIndex (VStr _) k => "string indices must be integers, not '" +++ type_name k +++ "'"
  | BadIndex _ k => "list indices must be integers or slices, not " +++ type_name k
  | NotSliceable _ => "unhashable type: 'slice'"
  | NoAttribute v a => "'" +++ type_name v +++ "' object has no attribute '" +++ a +++ "'"
  | JoinItem i v =>
      "sequence item " +++ decimal i i +++ ": expected str instance, "
        +++ type_name v +++ " found"
  | Raised msg => msg
  end.

(** *** Decoding JSON text *)

Definition is_char (n : nat) (a : ascii) : bool := Nat.eqb (nat_of_ascii a) n.

Definition is_ws (a : ascii) : bool :=
  is_char 32 a || is_char 9 a || is_char 10 a || is_char 13 a.

Definition is_digit (a : ascii) : bool :=
  (48 <=? nat_of_ascii a)%nat && (nat_of_ascii a <=? 57)%nat.

Fixpoint skip_ws (s : list ascii) : list ascii :=
  match s with
  | a :: s' => if is_ws a then skip_ws s' else s
  | [] => []
  end.

Fixpoint strip_prefix (p : list ascii) (s : list ascii) : option (list ascii) :=
  match p with
  | [] => Some s
  | a :: p' =>
      match s with
      | b :: s' => if Ascii.eqb a b then strip_prefix p' s' else None
      | [] => None
      end
  end.

Fixpoint take_digits (s : list ascii) : list ascii * list ascii :=
  match s with
  | a :: s' =>
      if is_digit a
      then let (ds, rest) := take_digits s' in (a :: ds, rest)
      else ([], s)
  | [] => ([], [])
  end.

Definition digits_value (ds : list ascii) : Z :=
  fold_left (fun acc a => (acc * 10 + (Z.of_nat (nat_of_ascii a) - 48))%Z) ds 0%Z.

(** an integer: [0], or a digit from 1 to 9 followed by digits; a
    fraction or an exponent after it is not decoded *)
Definition parse_int (s : list ascii) : option (Z * list ascii) :=
  match take_digits s with
  | ([], _) => None
  | (d :: ds, rest) =>
      if is_char 48 d && negb (Nat.eqb (List.length ds) 0) then None
      else
        match rest with
        | a :: _ =>
            if is_char 46 a || is_char 101 a || is_char 69 a then None
            else Some (digits_value (d :: ds), rest)
        | [] => Some (digits_value (d :: ds), rest)
        end
  end.

Definition unescape (a : ascii) : option ascii :=
  if is_char 34 a || is_char 92 a || is_char 47 a then Some a
  else if is_char 110 a then Some (ascii_of_nat 10)
  else if is_char 116 a then Some (ascii_of_nat 9)
  else if is_char 114 a then Some (ascii_of_nat 13)
  else if is_char 98 a then Some (ascii_of_nat 8)
  else if is_char 102 a then Some (ascii_of_nat 12)
  else None.

(** the characters of a string after its opening quote *)
Fixpoint parse_chars (s : list ascii) : option (string * list ascii) :=
  match s with
  | [] => None
  | a :: s' =>
      if is_char 34 a then Some (EmptyString, s')
      else if is_char 92 a then
        match s' with
        | b :: s'' =>
            match unescape b, parse_chars s'' with
            | Some c, Some (r, rest) => Some (String c r, rest)
            | _, _ => None
            end
        | [] => None
        end
      else if (nat_of_ascii a <? 32)%nat then None
      else
        match parse_chars s' with
        | Some (r, rest) => Some (String a r, rest)
        | None => None
        end
  end.

(** a later duplicate of a key replaces the value of the first *)
Fixpoint dict_set (k : string) (v : value) (d : list (string * value))
  : list (string * value) :=
  match d with
  | [] => [(k, v)]
  | (k', v') :: d' =>
      if String.eqb k k' then (k, v) :: d' else (k', v') :: dict_set k v d'
  end.

Definition dict_of (kvs : list (string * value)) : list (string * value) :=
  fold_left (fun d kv => dict_set (fst kv) (snd kv) d) kvs [].

Fixpoint parse_value (fuel : nat) (s : list ascii) : option (value * list ascii) :=
  match fuel with
  | O => None
  | S fuel' =>
      match skip_ws s with
      | [] => None
      | a :: s' =>
          if is_char 91 a then
            match skip_ws s' with
            | b :: s'' =>
                if is_char 93 b then Some (VList [], s'')
                else
                  match parse_elements fuel' s' with
                  | Some (l, rest) => Some (VList l, rest)
                  | None => None
                  end
            | [] => None
            end
          else if is_char 123 a then
            match skip_ws s' with
            | b :: s'' =>
                if is_char 125 b then Some (VDict [], s'')
                else
                  match parse_members fuel' s' with
                  | Some (kvs, rest) => Some (VDict (dict_of kvs), rest)
                  | None => None
                  end
            | [] => None
            end
          else if is_char 34 a then
            match parse_chars s' with
            | Some (r, rest) => Some (VStr r, rest)
            | None => None
            end
          else if is_char 45 a then
            match parse_int s' with
            | Some (z, rest) => Some (VInt (- z), rest)
            | None => None
            end
          else if is_digit a then
            match parse_int (a :: s') with
            | Some (z, rest) => Some (VInt z, rest)
            | None => None
            end
          else
            match strip_prefix (list_ascii_of_string "true") (a :: s'),
                  strip_prefix (list_ascii_of_string "false") (a :: s'),
                  strip_prefix (list_ascii_of_string "null") (a :: s') with
            | Some rest, _, _ => Some (VBool true, rest)
            | _, Some rest, _ => Some (VBool false, rest)
            | _, _, Some rest => Some (VNone, rest)
            | _, _, _ => None
            end
      end
  end

with parse_elements (fuel : nat) (s : list ascii) : option (list value * list ascii) :=
  match fuel with
  | O => None
  | S fuel' =>
      match parse_value fuel' s with
      | Some (v, rest) =>
          match skip_ws rest with
          | a :: rest' =>
              if is_char 44 a then
                match parse_elements fuel' rest' with
                | Some (l, rest'') => Some (v :: l, rest'')
                | None => None
                end
              else if is_char 93 a then Some ([v], rest')
              else None
          | [] => None
          end
      | None => None
      end
  end

with parse_members (fuel : nat) (s : list ascii)
  : option (list (string * value) * list ascii) :=
  match fuel with
  | O => None
  | S fuel' =>
      match skip_ws s with
      | q :: s' =>
          if is_char 34 q then
            match parse_chars s' with
            | Some (k, rest) =>
                match skip_ws rest with
                | c :: rest' =>
                    if is_char 58 c then
                      match parse_value fuel' rest' with
                      | Some (v, rest'') =>
                          match skip_ws rest'' with
                          | a :: rest3 =>
                              if is_char 44 a then
                                match parse_members fuel' rest3 with
                                | Some (kvs, rest4) => Some ((k, v) :: kvs, rest4)
                                | None => None
                                end
                              else if is_char 125 a then Some ([(k, v)], rest3)
                              else None
                          | [] => None
                          end
                      | None => None
                      end
                    else None
                | [] => None
                end
            | None => None
            end
          else None
      | [] => None
      end
  end.

(** [json.loads]; a decoding error is reported without CPython's
    description and position *)
Definition loads (s : string) : outcome value :=
  let cs := list_ascii_of_string s in
  match parse_value (2 * List.length cs + 2) cs with
  | Some (v, rest) =>
      match skip_ws rest with
      | [] => Ok v
      | _ :: _ => Raise (Raised "JSONDecodeError: Extra data")
      end
  | None => Raise (Raised "JSONDecodeError")
  end.

End Cpython.

Definition cpython : Interp :=
  {| py_repr := Cpython.repr;
     builtin_message := Cpython.message;
     json_loads := Cpython.loads |}.

(** the double quote, for writing JSON text *)
Definition dq : string := String (ascii_of_nat 34) EmptyString.

(** A world that answers from a script: the replies of the Tool Session
    and of the Model Endpoint, each consumed in order. *)
Record Script : Type := {
  tool_replies : list (outcome CallToolResult);
  http_replies : list (outcome Response)
}.

Definition scripted_session (catalog : list Tool) : ClientSession Script :=
  {| list_tools := fun w => (w, Ok {| tools := catalog |});
     call_tool := fun _ _ w =>
       match tool_replies w with
       | [] => (w, Raise (Raised "Connection closed"))
       | o :: rest => ({| tool_replies := rest; http_replies := http_replies w |}, o)
       end |}.

Definition scripted_http : AsyncClient Script :=
  {| post := fun _ _ w =>
       match http_replies w with
       | [] => (w, Raise (Raised "All connection attempts failed"))
       | o :: rest => ({| tool_replies := tool_replies w; http_replies := rest |}, o)
       end |}.

Definition connected (catalog : list Tool) : MCPClient Script :=
  {| session := Some (scripted_session catalog); http_client := scripted_http |}.

Definition unconnected : MCPClient Script :=
  {| session := None; http_client := scripted_http |}.

(** an HTTP response whose body is the JSON text [body] *)
Definition http_response (status : Z) (body : string) : Response :=
  {| status_code := status; text := body; json := Cpython.loads body |}.

Definition run (c : MCPClient Script) (w : Script) (query : string)
  : state Script * outcome string :=
  process_query cpython c query (initial_state w).

(** ** Reading a run

    The definitions below are used to state the properties: projections
    of the record of calls, the shape of a tool-call request and of a
    response, and the trace of the loop over the tool calls. *)

(** the [(name, arguments)] of the tool invocations made, in order *)
Definition tool_invocations (log : list event) : list (value * value) :=
  flat_map (fun ev => match ev with
                      | CallTool n a _ => [(n, a)]
                      | _ => []
                      end) log.

(** the [(body, outcome)] of the Model Endpoint requests made, in order *)
Definition posts (log : list event) : list (value * outcome Response) :=
  flat_map (fun ev => match ev with
                      | Post _ p o => [(p, o)]
                      | _ => []
                      end) log.

(** the requests after the initial one *)
Definition followups (log : list event) : list (value * outcome Response) :=
  tl (posts log).

(** [name], [arguments] and [id] of a tool-call request, as lines 153-155
    read them *)
Definition tool_call_parts (tool_call : value) : option (value * value * value) :=
  match (f <~ getitem tool_call "function" ;; getitem f "name"),
        (f <~ getitem tool_call "function" ;; getitem f "arguments"),
        getitem tool_call "id" with
  | Ok n, Ok a, Ok i => Some (n, a, i)
  | _, _, _ => None
  end.

Definition well_formed (tool_call : value) : bool :=
  match tool_call_parts tool_call with
  | Some _ => true
  | None => false
  end.

Definition call_name (tool_call : value) : value :=
  match tool_call_parts tool_call with
  | Some (n, _, _) => n
  | None => VNone
  end.

Definition call_args (tool_call : value) : value :=
  match tool_call_parts tool_call with
  | Some (_, a, _) => a
  | None => VNone
  end.

Definition call_id (tool_call : value) : value :=
  match tool_call_parts tool_call with
  | Some (_, _, i) => i
  | None => VNone
  end.

(** the invocations a batch of tool calls gives rise to: one for each
    call whose arguments are not text or decode, none for the others *)
Definition expected_invocations (itp : Interp) (tool_calls : list value)
  : list (value * value) :=
  flat_map (fun tc => match parse_arguments itp (call_args tc) with
                      | Ok p => [(call_name tc, p)]
                      | Raise _ => []
                      end) tool_calls.

(** [tool_result] after an invocation with outcome [o] (lines 160-166) *)
Definition tool_result_of (itp : Interp) (tool_name : value)
    (o : outcome CallToolResult) : value :=
  match (result <~ o ;; _ <~ slice_to 100 (content result) ;; Ok (content result)) with
  | Ok v => v
  | Raise e => VStr (tool_error_text itp tool_name e)
  end.

(** what a follow-up with outcome [o] appends to [final_text] (lines 184-202) *)
Definition followup_lines (itp : Interp) (o : outcome Response) : list value :=
  match (response <~ o ;; followup_content response) with
  | Ok (Some c) => [c]
  | Ok None => []
  | Raise e => [VStr (followup_error_text itp e)]
  end.

(** the message of the first choice of a response with status 200 whose
    body is an object with a non-empty [choices] list *)
Definition choice_message (r : Response) : option (list (string * value)) :=
  if (status_code r =? 200)%Z then
    match json r with
    | Ok (VDict body) =>
        match lookup "choices" body with
        | Some (VList (VDict choice :: _)) =>
            match lookup "message" choice with
            | Some (VDict m) => Some m
            | Some _ => None
            | None => Some []
            end
        | _ => None
        end
    | _ => None
    end
  else None.

(** the top-level [error] field of the body of a response *)
Definition error_field (r : Response) : option value :=
  match json r with
  | Ok (VDict body) => lookup "error" body
  | _ => None
  end.

(** the non-empty [choices] list of a body *)
Definition choices_list (body : list (string * value)) : option (list value) :=
  match lookup "choices" body with
  | Some (VList (c :: cs)) => Some (c :: cs)
  | _ => None
  end.

(** a body has no usable [choices]: the key is absent or its value is
    falsy (an empty list, [null]) *)
Definition lacks_choices (body : list (string * value)) : bool :=
  match lookup "choices" body with
  | Some c => negb (truthy c)
  | None => true
  end.

(** what line 148-149 appends for the assistant message [m] *)
Definition initial_lines (m : list (string * value)) : list value :=
  match lookup "content" m with
  | Some c => if truthy c then [c] else []
  | None => []
  end.

(** [frag] occurs in [out] *)
Definition appears_in (frag out : string) : Prop :=
  exists a b, out = a +++ frag +++ b.

(** the three error reports [process_query] returns for a query it gives up *)
Definition error_report (out : string) : Prop :=
  (exists t, out = "Error from OpenRouter: " +++ t)
  \/ out = "Invalid response received from API"
  \/ (exists t, out = "Error processing query: " +++ t).

(** the history after the tool calls [pairs], each with its result *)
Definition history (query : string) (pairs : list (value * value)) : list value :=
  user_message query ::
  flat_map (fun p => [assistant_call_message (fst p);
                      tool_message (call_id (fst p)) (snd p)]) pairs.

(** [m] answers a tool call of [prev]: [prev] is an assistant message
    one of whose [tool_calls] has the [id] that [m] carries as
    [tool_call_id] *)
Definition answers_call_of (prev m : value) : Prop :=
  exists tcs tc i,
    getitem prev "role" = Ok (VStr "assistant")
    /\ getitem prev "tool_calls" = Ok (VList tcs)
    /\ In tc tcs
    /\ getitem tc "id" = Ok i
    /\ getitem m "tool_call_id" = Ok i.

(** every [tool] message comes right after the assistant message whose
    tool call it answers *)
Definition linked (h : list value) : Prop :=
  forall i m,
    nth_error h i = Some m ->
    getitem m "role" = Ok (VStr "tool") ->
    exists j prev, i = S j /\ nth_error h j = Some prev /\ answers_call_of prev m.

(** the [messages] of a request body *)
Definition sent_messages (payload : value) : list value :=
  match getitem payload "messages" with
  | Ok (VList l) => l
  | _ => []
  end.

(** the [tool_call_id] of the last message of a request body *)
Definition answered_id (payload : value) : option value :=
  match getitem (last (sent_messages payload) VNone) "tool_call_id" with
  | Ok i => Some i
  | Raise _ => None
  end.

(** the tool calls that are processed: those before the first one that
    lacks [id], [function], [function.name] or [function.arguments], at
    which lines 153-155 raise and the loop is left *)
Fixpoint processed (tool_calls : list value) : list value :=
  match tool_calls with
  | [] => []
  | tc :: l => if well_formed tc then tc :: processed l else []
  end.

(** [r] is the [tool_result] of the tool call [tc] in a run that made
    the calls [log]: the error text when the arguments do not decode, and
    otherwise what lines 160-166 make of the outcome of an invocation
    recorded in [log] *)
Definition result_of_call (itp : Interp) (log : list event) (tc r : value) : Prop :=
  match parse_arguments itp (call_args tc) with
  | Ok p => exists o, In (CallTool (call_name tc) p o) log
                      /\ r = tool_result_of itp (call_name tc) o
  | Raise e => r = VStr (tool_error_text itp (call_name tc) e)
  end.

(** *** The trace of the loop *)

Inductive invocation : Type :=
| NotDecoded (e : exn)
| Invoked (parsed_args : value) (o : outcome CallToolResult).

Record step : Type := {
  step_call : value;
  step_invocation : invocation;
  step_reply : outcome Response
}.

Definition invocation_events (tool_name : value) (i : invocation) : list event :=
  match i with
  | NotDecoded _ => []
  | Invoked p o => [CallTool tool_name p o]
  end.

Definition invocation_result (itp : Interp) (tool_name : value) (i : invocation) : value :=
  match i with
  | NotDecoded e => VStr (tool_error_text itp tool_name e)
  | Invoked _ o => tool_result_of itp tool_name o
  end.

Definition decoded_as (itp : Interp) (tool_args : value) (i : invocation) : Prop :=
  match i with
  | NotDecoded e => parse_arguments itp tool_args = Raise e
  | Invoked p _ => parse_arguments itp tool_args = Ok p
  end.

Definition step_result (itp : Interp) (s : step) : value :=
  invocation_result itp (call_name (step_call s)) (step_invocation s).

Definition step_messages (itp : Interp) (s : step) : list value :=
  [assistant_call_message (step_call s);
   tool_message (call_id (step_call s)) (step_result itp s)].

Definition step_lines (itp : Interp) (s : step) : list value :=
  VStr (tool_fragment itp (call_name (step_call s)) (step_result itp s))
  :: followup_lines itp (step_reply s).

Fixpoint trace_events (itp : Interp) (available_tools h : list value) (ss : list step)
  : list event :=
  match ss with
  | [] => []
  | s :: ss' =>
      let h' := h ++ step_messages itp s in
      invocation_events (call_name (step_call s)) (step_invocation s)
      ++ Post completions (followup_payload h' available_tools) (step_reply s)
      :: trace_events itp available_tools h' ss'
  end.

Definition step_ok (itp : Interp) (s : step) : Prop :=
  well_formed (step_call s) = true
  /\ decoded_as itp (call_args (step_call s)) (step_invocation s).

(** *** The initial exchange *)

Definition catalog_entries (catalog : ListToolsResult) : list value :=
  map tool_entry (tools catalog).

Definition initial_request (query : string) (catalog : ListToolsResult) : value :=
  initial_payload [user_message query] (catalog_entries catalog).

(** the run state once the initial request has been answered by [o] *)
Definition after_initial {W} (w : W) (query : string) (catalog : ListToolsResult)
    (o : outcome Response) : state W :=
  {| world := w;
     calls := [ListTools (Ok catalog); Post completions (initial_request query catalog) o];
     messages := [user_message query];
     final_text := [] |}.

(** the outer [except] (lines 206-210) *)
Definition report {W} (itp : Interp) (r : state W * outcome string)
  : state W * outcome string :=
  match r with
  | (st, Ok a) => (st, Ok a)
  | (st, Raise e) => (st, Ok ("Error processing query: " +++ exn_str itp e))
  end.

(** *** The history invariant *)

(** every request recorded carries a linked history *)
Definition requests_linked (log : list event) : Prop :=
  forall url p o, In (Post url p o) log -> linked (sent_messages p).

Definition coherent {W} (st : state W) : Prop :=
  linked (messages st) /\ requests_linked (calls st).

(** the computation [c] maintains [P] on the run state, whether it
    returns or raises *)
Definition keeps {W A} (P : state W -> Prop) (c : M W A) : Prop :=
  forall st st' o, c st = (st', o) -> P st -> P st'.

(** the run state after lines 97-102 *)
Definition seeded {W} (query : string) (st : state W) : state W :=
  {| world := world st; calls := calls st;
     messages := [user_message query]; final_text := final_text st |}.

(** ** Scenarios

    Recorded exchanges on which the properties are run.  JSON text is
    written with ['] standing for the double quote. *)

Definition quote_char (a : ascii) : ascii :=
  if Ascii.eqb a "'"%char then ascii_of_nat 34 else a.

Fixpoint json_text (s : string) : string :=
  match s with
  | EmptyString => EmptyString
  | String a s' => String (quote_char a) (json_text s')
  end.

Definition reply (status : Z) (body : string) : Response :=
  http_response status (json_text body).

Definition text_content (t : string) : outcome CallToolResult :=
  Ok {| content := VList [VObject ("TextContent(type='text', text='" +++ t
                                     +++ "', annotations=None)")] |}.

Definition the_tools : ListToolsResult :=
  {| tools := [{| name := "add"; description := Some "Add one to x";
                  inputSchema := VDict [("type", VStr "object")] |};
               {| name := "lookup"; description := None;
                  inputSchema := VDict [("type", VStr "object")] |}] |}.

Definition the_session : ClientSession Script := scripted_session (tools the_tools).

Definition client : MCPClient Script := connected (tools the_tools).

(** the assistant message of a response, and the tool calls it carries *)
Definition message_of (r : Response) : list (string * value) :=
  match choice_message r with
  | Some m => m
  | None => []
  end.

Definition tool_calls_of (r : Response) : list value :=
  match lookup "tool_calls" (message_of r) with
  | Some (VList l) => l
  | _ => []
  end.

Definition body_of (r : Response) : list (string * value) :=
  match json r with
  | Ok (VDict body) => body
  | _ => []
  end.

(** a script that answers the initial request with [r] *)
Definition answering (r : Response) (tool_outcomes : list (outcome CallToolResult))
    (followup_outcomes : list (outcome Response)) : Script :=
  {| tool_replies := tool_outcomes; http_replies := Ok r :: followup_outcomes |}.

(** the world once the initial request has been answered *)
Definition answered (w : Script) : Script :=
  {| tool_replies := tool_replies w; http_replies := tl (http_replies w) |}.

(** a plain answer, and the same body with a top-level [error] beside it *)
Definition plain_answer : Response :=
  reply 200 "{'choices':[{'message':{'role':'assistant','content':'hi'}}]}".

Definition answer_with_error : Response :=
  reply 200 "{'error':'quota exceeded','choices':[{'message':{'role':'assistant','content':'hi'}}]}".

(** the Model Endpoint is failing *)
Definition upstream_failure : Response := reply 500 "upstream failure".

Definition error_body : Response :=
  reply 200 "{'error':{'message':'No auth','code':401}}".

Definition no_choices : Response := reply 200 "{'choices':[]}".

(** three tool calls: the second invocation fails, the second follow-up
    is refused, the third follow-up has no [choices] *)
Definition three_calls : Response :=
  reply 200
    ("{'choices':[{'message':{'role':'assistant','content':null,'tool_calls':["
     +++ "{'id':'call_1','type':'function','function':{'name':'add','arguments':'{\'x\':1}'}},"
     +++ "{'id':'call_2','type':'function','function':{'name':'lookup','arguments':'{\'key\':\'a\'}'}},"
     +++ "{'id':'call_3','type':'function','function':{'name':'add','arguments':{'x':2}}}"
     +++ "]}}]}").

Definition three_calls_script : Script :=
  answering three_calls
    [text_content "2"; Raise (Raised "Unknown tool: lookup"); text_content "3"]
    [Ok (reply 200 "{'choices':[{'message':{'role':'assistant','content':'The sum is 2.'}}]}");
     Ok (reply 429 "rate limited");
     Ok (reply 200 "{}")].

(** two tool calls, the first with arguments that are not JSON; the
    first follow-up cannot be sent *)
Definition bad_arguments : Response :=
  reply 200
    ("{'choices':[{'message':{'role':'assistant','content':'Let me check.','tool_calls':["
     +++ "{'id':'call_1','type':'function','function':{'name':'add','arguments':'{x: 1}'}},"
     +++ "{'id':'call_2','type':'function','function':{'name':'add','arguments':'{\'x\':1}'}}"
     +++ "]}}]}").

Definition bad_arguments_script : Script :=
  answering bad_arguments
    [text_content "2"]
    [Raise (Raised "Server disconnected without sending a response.");
     Ok (reply 200 "{'choices':[{'message':{'role':'assistant','content':'x is now 2.'}}]}")].

(** one tool call whose arguments are not JSON *)
Definition one_bad_call : Response :=
  reply 200
    ("{'choices':[{'message':{'content':null,'tool_calls':["
     +++ "{'id':'call_1','type':'function','function':{'name':'add','arguments':'{x: 1}'}}"
     +++ "]}}]}").

Definition one_bad_call_script : Script :=
  answering one_bad_call []
    [Ok (reply 200 "{'choices':[{'message':{'role':'assistant','content':'Sorry.'}}]}")].

(** *** More recorded exchanges *)

(** a Tool Session that cannot list its tools *)
Definition broken_session : ClientSession Script :=
  {| list_tools := fun w => (w, Raise (Raised "Connection closed"));
     call_tool := call_tool the_session |}.

Definition broken_client : MCPClient Script :=
  {| session := Some broken_session; http_client := scripted_http |}.

(** the Model Endpoint cannot be reached *)
Definition unreachable : Script := {| tool_replies := []; http_replies := [] |}.

Definition not_json : Response := reply 200 "<html>Bad gateway</html>".

(** three tool calls, the second without [id] *)
Definition missing_id : Response :=
  reply 200
    ("{'choices':[{'message':{'role':'assistant','content':'On it.','tool_calls':["
     +++ "{'id':'call_1','type':'function','function':{'name':'add','arguments':'{\'x\':1}'}},"
     +++ "{'type':'function','function':{'name':'add','arguments':'{\'x\':2}'}},"
     +++ "{'id':'call_3','type':'function','function':{'name':'add','arguments':'{\'x\':3}'}}"
     +++ "]}}]}").

Definition missing_id_script : Script :=
  answering missing_id
    [text_content "2"; text_content "3"; text_content "4"]
    [Ok (reply 200 "{'choices':[{'message':{'role':'assistant','content':'x is 2.'}}]}");
     Ok (reply 200 "{'choices':[{'message':{'role':'assistant','content':'x is 3.'}}]}")].

Definition null_tool_calls : Response :=
  reply 200 "{'choices':[{'message':{'role':'assistant','content':'hi','tool_calls':null}}]}".

(** one tool call, whose follow-up is answered with a content in parts *)
Definition one_call : Response :=
  reply 200
    ("{'choices':[{'message':{'role':'assistant','content':null,'tool_calls':["
     +++ "{'id':'call_1','type':'function','function':{'name':'add','arguments':'{\'x\':1}'}}"
     +++ "]}}]}").

Definition content_in_parts_script : Script :=
  answering one_call
    [text_content "2"]
    [Ok (reply 200 "{'choices':[{'message':{'role':'assistant','content':[{'type':'text','text':'Done.'}]}}]}")].

(** every value appended to the output is truthy *)
Definition no_empty_fragment {W} (st : state W) : Prop :=
  forallb truthy (final_text st) = true.

(** ** Connecting, the chat loop and shutting down

    The rest of [client.py]: [connect_to_server], [chat_loop], [cleanup]
    and [main].  The file system, the server process, the session
    handshake and the closing of the resources are oracles of a [Host];
    what is typed on the standard input is a list of the outcomes of
    [input()], after which [input()] raises [EOFError].  The calls made are
    recorded as [host_event]s.  Of the [print]s, none is modelled: the
    answer printed at line 225 is the response recorded with the query. *)

(** [s.endswith(suffix)] *)
Fixpoint ends_with (suffix s : string) : bool :=
  String.eqb suffix s ||
  match s with
  | EmptyString => false
  | String _ s' => ends_with suffix s'
  end.

(** [c.isspace()], for the characters below 256 *)
Definition isspace (a : ascii) : bool :=
  let n := nat_of_ascii a in
  ((9 <=? n)%nat && (n <=? 13)%nat) || ((28 <=? n)%nat && (n <=? 32)%nat)
  || Nat.eqb n 133 || Nat.eqb n 160.

Fixpoint all_space (s : string) : bool :=
  match s with
  | EmptyString => true
  | String a s' => isspace a && all_space s'
  end.

Fixpoint no_space (s : string) : bool :=
  match s with
  | EmptyString => true
  | String a s' => negb (isspace a) && no_space s'
  end.

Fixpoint lstrip (s : string) : string :=
  match s with
  | EmptyString => EmptyString
  | String a s' => if isspace a then lstrip s' else s
  end.

Fixpoint rstrip (s : string) : string :=
  match s with
  | EmptyString => EmptyString
  | String a s' =>
      match rstrip s' with
      | EmptyString => if isspace a then EmptyString else String a EmptyString
      | String b r => String a (String b r)
      end
  end.

(** [s.strip()] *)
Definition strip (s : string) : string := rstrip (lstrip s).

(** [c.lower()], for the characters below 256 *)
Definition lower_char (a : ascii) : ascii :=
  let n := nat_of_ascii a in
  if ((65 <=? n)%nat && (n <=? 90)%nat)
     || ((192 <=? n)%nat && (n <=? 222)%nat && negb (Nat.eqb n 215))
  then ascii_of_nat (n + 32)
  else a.

(** [s.lower()] *)
Fixpoint lower (s : string) : string :=
  match s with
  | EmptyString => EmptyString
  | String a s' => String (lower_char a) (lower s')
  end.

Record StdioServerParameters : Type := {
  command : string;
  args : list string;
  env : option (list (string * string))
}.

(** how waiting for [session.initialize()] ends (lines 73-79) *)
Inductive init_outcome : Type :=
| Initialized
| TimedOut
| InitFailed (e : exn).

Record Host (W : Type) : Type := {
  path_exists : string -> W -> bool;
  stdio_client : StdioServerParameters -> W -> W * outcome unit;
  open_session : W -> W * outcome (ClientSession W);
  initialize : ClientSession W -> W -> W * init_outcome;
  exit_stack_aclose : W -> W * outcome unit;
  http_client_aclose : W -> W * outcome unit
}.

Inductive host_event : Type :=
| Spawned (server_params : StdioServerParameters) (o : outcome unit)
| SessionOpened (failure : option exn)
| Initializing (o : init_outcome)
| ToolsListed (o : outcome ListToolsResult)
| Read (o : outcome string)
| Asked (query : string) (log : list event) (o : outcome string)
| StackClosed (o : outcome unit)
| HttpClosed (o : outcome unit).

(** the client object, the world and the calls made so far *)
Record driver (W : Type) : Type := {
  client_of : MCPClient W;
  world_of : W;
  events : list host_event
}.

Definition logged {W} (a : driver W) (w : W) (ev : host_event) : driver W :=
  {| client_of := client_of a; world_of := w; events := events a ++ [ev] |}.

(** [self.session = s] *)
Definition with_session {W} (s : ClientSession W) (a : driver W) : driver W :=
  {| client_of := {| session := Some s; http_client := http_client (client_of a) |};
     world_of := world_of a; events := events a |}.

(** [MCPClient.connect_to_server] (lines 38-90) *)
Definition connect_to_server {W} (host : Host W) (server_script_path : string)
    (a : driver W) : driver W * outcome unit :=
  if negb (path_exists host server_script_path (world_of a))
  then (a, Raise (Raised ("Server script not found: " +++ server_script_path)))
  else
    let is_python := ends_with ".py" server_script_path in
    let is_js := ends_with ".js" server_script_path in
    if negb (is_python || is_js)
    then (a, Raise (Raised "Server script must be a .py or .js file"))
    else
      let server_params :=
        {| command := if is_python then "python" else "node";
           args := [server_script_path];
           env := None |} in
      let (w1, o1) := stdio_client host server_params (world_of a) in
      let a1 := logged a w1 (Spawned server_params o1) in
      match o1 with
      | Raise e => (a1, Raise e)
      | Ok _ =>
          let (w2, o2) := open_session host w1 in
          match o2 with
          | Raise e => (logged a1 w2 (SessionOpened (Some e)), Raise e)
          | Ok s =>
              let a2 := with_session s (logged a1 w2 (SessionOpened None)) in
              let (w3, o3) := initialize host s w2 in
              let a3 := logged a2 w3 (Initializing o3) in
              match o3 with
              | TimedOut =>
                  (a3, Raise (Raised "Failed to initialize session within timeout period"))
              | InitFailed e => (a3, Raise e)
              | Initialized =>
                  let (w4, o4) := list_tools s w3 in
                  let a4 := logged a3 w4 (ToolsListed o4) in
                  match o4 with
                  | Ok _ => (a4, Ok tt)
                  | Raise e => (a4, Raise e)
                  end
              end
          end
      end.

(** [input()] on what is left of the standard input *)
Definition input (stdin : list (outcome string)) : outcome string * list (outcome string) :=
  match stdin with
  | [] => (Raise (Raised "EOF when reading a line"), [])
  | o :: rest => (o, rest)
  end.

(** line 221, for the stripped [query] *)
Definition is_quit (query : string) : bool :=
  existsb (String.eqb (lower query)) ["quit"; "exit"; "q"].

(** [MCPClient.chat_loop] (lines 212-229); [None] when the loop is still
    running after [fuel] iterations *)
Fixpoint chat_loop {W} (itp : Interp) (fuel : nat) (stdin : list (outcome string))
    (a : driver W) : option (driver W * list (outcome string)) :=
  match fuel with
  | O => None
  | S fuel' =>
      let (line, stdin') := input stdin in
      let a0 := logged a (world_of a) (Read line) in
      match line with
      | Raise e => chat_loop itp fuel' stdin' a0
      | Ok l =>
          let query := strip l in
          if is_quit query then Some (a0, stdin')
          else
            let (st', o) := process_query itp (client_of a0) query
                              (initial_state (world_of a0)) in
            chat_loop itp fuel' stdin' (logged a0 (world st') (Asked query (calls st') o))
      end
  end.

(** the [try] block of [cleanup] (lines 235-237) *)
Definition cleanup_try {W} (host : Host W) (a : driver W) : driver W * outcome unit :=
  let (w1, o1) := exit_stack_aclose host (world_of a) in
  let a1 := logged a w1 (StackClosed o1) in
  match o1 with
  | Raise e => (a1, Raise e)
  | Ok _ =>
      let (w2, o2) := http_client_aclose host w1 in
      (logged a1 w2 (HttpClosed o2), o2)
  end.

(** [MCPClient.cleanup] (lines 231-239) *)
Definition cleanup {W} (host : Host W) (a : driver W) : driver W * outcome unit :=
  match cleanup_try host a with
  | (a', Ok _) => (a', Ok tt)
  | (a', Raise _) => (a', Ok tt)
  end.

(** how [main] ends *)
Inductive exit : Type :=
| Returned
| SystemExit (code : Z)
| Uncaught (e : exn).

(** [MCPClient()] (lines 18-36) *)
Definition new_client {W} (http : AsyncClient W) (w : W) : driver W :=
  {| client_of := {| session := None; http_client := http |};
     world_of := w; events := [] |}.

(** [main] (lines 241-256): the world, the calls made and the input left
    when it ends, and how it ends *)
Definition main {W} (itp : Interp) (host : Host W) (http : AsyncClient W) (fuel : nat)
    (argv : list string) (stdin : list (outcome string)) (w : W)
  : option (W * list host_event * list (outcome string) * exit) :=
  match argv with
  | _ :: path :: _ =>
      let (a1, o) := connect_to_server host path (new_client http w) in
      match o with
      | Raise e =>
          let (a2, _) := cleanup host a1 in
          Some (world_of a2, events a2, stdin, Uncaught e)
      | Ok _ =>
          match chat_loop itp fuel stdin a1 with
          | None => None
          | Some (a2, stdin') =>
              let (a3, _) := cleanup host a2 in
              Some (world_of a3, events a3, stdin', Returned)
          end
      end
  | _ => Some (w, [], stdin, SystemExit 1)
  end.

(** *** Reading the events *)

(** the queries given to [process_query], in order *)
Definition asked_queries (evs : list host_event) : list string :=
  flat_map (fun ev => match ev with
                      | Asked q _ _ => [q]
                      | _ => []
                      end) evs.

(** the lines read that were not raised, stripped *)
Definition typed_queries (lines : list (outcome string)) : list string :=
  flat_map (fun o => match o with
                     | Ok l => [strip l]
                     | Raise _ => []
                     end) lines.

(** the outcome [o] of [input()] does not end the loop *)
Definition goes_on (o : outcome string) : bool :=
  match o with
  | Ok l => negb (is_quit (strip l))
  | Raise _ => true
  end.

Definition is_read (ev : host_event) : bool :=
  match ev with
  | Read _ => true
  | _ => false
  end.

Definition is_stack_closed (ev : host_event) : bool :=
  match ev with
  | StackClosed _ => true
  | _ => false
  end.

(** a host for the recorded exchanges: the scripts named in [present]
    exist, the server starts, the session opens on [the_session], and
    initializing ends as [init] says *)
Definition scripted_host (present : list string) (init : init_outcome) : Host Script :=
  {| path_exists := fun p _ => existsb (String.eqb p) present;
     stdio_client := fun _ w => (w, Ok tt);
     open_session := fun w => (w, Ok the_session);
     initialize := fun _ w => (w, init);
     exit_stack_aclose := fun w => (w, Ok tt);
     http_client_aclose := fun w => (w, Ok tt) |}.

(** a host on which closing the exit stack fails *)
Definition stuck_host : Host Script :=
  {| path_exists := fun _ _ => true;
     stdio_client := fun _ w => (w, Ok tt);
     open_session := fun w => (w, Ok the_session);
     initialize := fun _ w => (w, Initialized);
     exit_stack_aclose := fun w => (w, Raise (Raised "Attempted to exit cancel scope in a different task"));
     http_client_aclose := fun w => (w, Ok tt) |}.

(** a client connected to [the_session], about to chat in the world [w] *)
Definition chatting (w : Script) : driver Script :=
  {| client_of := client; world_of := w; events := [] |}.

(** what is typed: a query, a line that cannot be decoded, a quit
    command, and a line that is never read *)
Definition keyboard : list (outcome string) :=
  [Ok "  hello ";
   Raise (Raised "'utf-8' codec can't decode byte 0xff in position 0: invalid start byte");
   Ok " Quit ";
   Ok "never read"].

(** * Properties *)

(** ** Strings and lists *)

Lemma append_assoc (a b c : string) : (a +++ b) +++ c = a +++ b +++ c.
Proof.
  induction a as [|x a IH]; simpl; [reflexivity | now rewrite IH].
Qed.

Lemma append_empty_r (a : string) : a +++ EmptyString = a.
Proof.
  induction a as [|x a IH]; simpl; [reflexivity | now rewrite IH].
Qed.

Lemma is_prefix_append (p b : string) : is_prefix p (p +++ b) = true.
Proof.
  induction p as [|x p IH]; simpl; [reflexivity|].
  now rewrite Ascii.eqb_refl, IH.
Qed.

Lemma is_substring_prefix (p s : string) :
  is_prefix p s = true -> is_substring p s = true.
Proof.
  intros H. destruct s; simpl; now rewrite H.
Qed.

Lemma appears_in_is_substring (p s : string) :
  appears_in p s -> is_substring p s = true.
Proof.
  intros (a & b & ->). induction a as [|x a IH]; simpl.
  - apply is_substring_prefix, is_prefix_append.
  - rewrite IH. apply orb_true_r.
Qed.

Lemma appears_in_refl (s : string) : appears_in s s.
Proof.
  exists EmptyString, EmptyString. simpl. now rewrite append_empty_r.
Qed.

Lemma appears_in_concat (sep x : string) (l : list string) :
  In x l -> appears_in x (String.concat sep l).
Proof.
  induction l as [|y l IH]; intros HIn; [destruct HIn|].
  destruct l as [|z l].
  - destruct HIn as [->|[]]. apply appears_in_refl.
  - destruct HIn as [->|HIn].
    + exists EmptyString, (sep +++ String.concat sep (z :: l)). reflexivity.
    + destruct (IH HIn) as (a & b & E).
      exists (y +++ sep +++ a), b.
      change (String.concat sep (y :: z :: l))
        with (y +++ sep +++ String.concat sep (z :: l)).
      rewrite E. now rewrite !append_assoc.
Qed.

Lemma join_items_strs (i : nat) (l : list string) :
  join_items i (map VStr l) = Ok l.
Proof.
  revert i. induction l as [|s l IH]; intros i; simpl; [reflexivity|].
  now rewrite IH.
Qed.

Lemma all_str_map (l : list value) :
  forallb is_str l = true -> exists ss, l = map VStr ss.
Proof.
  induction l as [|v l IH]; simpl; intros H.
  - now exists [].
  - apply andb_true_iff in H as [Hv Hl]. destruct (IH Hl) as [ss ->].
    destruct v; try discriminate. now exists (s :: ss).
Qed.

Lemma filter_all {A} (f : A -> bool) (l : list A) :
  forallb f l = true -> filter f l = l.
Proof.
  induction l as [|x l IH]; simpl; intros H; [reflexivity|].
  apply andb_true_iff in H as [Hx Hl]. now rewrite Hx, IH.
Qed.

Lemma forallb_of_map {A B} (g : A -> B) (f : B -> bool) (l : list A) :
  forallb f (map g l) = forallb (fun x => f (g x)) l.
Proof.
  induction l as [|x l IH]; simpl; [reflexivity | now rewrite IH].
Qed.

Lemma fst_report {W} (itp : Interp) (st : state W) (o : outcome string) :
  fst (report itp (st, o)) = st.
Proof.
  now destruct o.
Qed.

(** ** The values appended to the output are never empty *)

Lemma dict_get_truthy (v : value) (k : string) (c : value) :
  dict_get v k VNone = Ok c -> truthy c = true -> getitem v k = Ok c.
Proof.
  destruct v; simpl; try discriminate.
  destruct (lookup k d); intros [= <-]; [reflexivity | discriminate].
Qed.

Lemma followup_content_truthy (r : Response) (c : value) :
  followup_content r = Ok (Some c) -> truthy c = true.
Proof.
  unfold followup_content.
  destruct (negb (status_code r =? 200)%Z); [discriminate|].
  destruct (json r) as [d|]; simpl; [|discriminate].
  destruct (py_in "choices" d) as [[]|]; simpl; try discriminate.
  destruct (getitem d "choices") as [ch|]; simpl; [|discriminate].
  destruct (truthy ch); [|discriminate].
  destruct (getitem0 ch) as [c0|]; simpl; [|discriminate].
  destruct (dict_get c0 "message" (VDict [])) as [m|]; simpl; [|discriminate].
  destruct (dict_get m "content" VNone) as [x|] eqn:G; simpl; [|discriminate].
  destruct (truthy x) eqn:T; [|discriminate].
  rewrite (dict_get_truthy _ _ G T). simpl. now intros [= <-].
Qed.

Lemma followup_lines_truthy (itp : Interp) (o : outcome Response) :
  forallb truthy (followup_lines itp o) = true.
Proof.
  unfold followup_lines. destruct o as [r|e]; simpl; [|reflexivity].
  destruct (followup_content r) as [[c|]|e] eqn:F; simpl; try reflexivity.
  now rewrite (followup_content_truthy _ F).
Qed.

Lemma initial_lines_truthy (m : list (string * value)) :
  forallb truthy (initial_lines m) = true.
Proof.
  unfold initial_lines. destruct (lookup "content" m) as [c|]; [|reflexivity].
  destruct (truthy c) eqn:T; simpl; [now rewrite T | reflexivity].
Qed.

Lemma step_lines_truthy (itp : Interp) (ss : list step) :
  forallb truthy (flat_map (step_lines itp) ss) = true.
Proof.
  induction ss as [|s ss IH]; [reflexivity|].
  simpl. now rewrite forallb_app, IH, followup_lines_truthy.
Qed.

(** ** One tool call, and the loop over a batch *)

Section Runs.

Context {W : Type} (itp : Interp) (self : MCPClient W) (s : ClientSession W).
Variable available_tools : list value.

Lemma invoke_tool_run (n a : value) (st : state W) :
  exists st' i,
    decoded_as itp a i
    /\ invoke_tool itp s n a st = (st', Ok (invocation_result itp n i))
    /\ calls st' = calls st ++ invocation_events n i
    /\ messages st' = messages st
    /\ final_text st' = final_text st.
Proof.
  unfold invoke_tool, try_except, bind, lift, session_call_tool, ret.
  destruct (parse_arguments itp a) as [p|e] eqn:P.
  - destruct (call_tool s n p (world st)) as [w' o] eqn:C.
    exists (record w' (CallTool n p o) st), (Invoked p o).
    split; [exact P|]. split; [|now simpl].
    unfold invocation_result, tool_result_of.
    destruct o as [r|e]; simpl; [|reflexivity].
    destruct (slice_to 100 (content r)); reflexivity.
  - exists st, (NotDecoded e). simpl. rewrite app_nil_r. now repeat split.
Qed.

Lemma follow_up_run (st : state W) :
  exists st' o,
    follow_up itp self available_tools st = (st', Ok tt)
    /\ calls st' = calls st
                   ++ [Post completions (followup_payload (messages st) available_tools) o]
    /\ messages st' = messages st
    /\ final_text st' = final_text st ++ followup_lines itp o.
Proof.
  unfold follow_up, try_except, bind, get_messages, http_post, lift, followup_lines.
  destruct (post (http_client self) completions
              (followup_payload (messages st) available_tools) (world st))
    as [w' o] eqn:P.
  destruct o as [r|e]; simpl.
  - destruct (followup_content r) as [[c|]|e] eqn:F;
      eexists; exists (Ok r); simpl; rewrite F;
      (split; [reflexivity|]); simpl; rewrite ?app_nil_r; now repeat split.
  - eexists; exists (Raise e); simpl. now repeat split.
Qed.

Lemma handle_tool_call_run (tc : value) (st : state W) :
  well_formed tc = true ->
  exists st' i o,
    decoded_as itp (call_args tc) i
    /\ handle_tool_call itp self s available_tools tc st = (st', Ok tt)
    /\ calls st' = calls st
                   ++ trace_events itp available_tools (messages st)
                        [{| step_call := tc; step_invocation := i; step_reply := o |}]
    /\ messages st' = messages st
                      ++ step_messages itp
                           {| step_call := tc; step_invocation := i; step_reply := o |}
    /\ final_text st' = final_text st
                        ++ step_lines itp
                             {| step_call := tc; step_invocation := i; step_reply := o |}.
Proof.
  unfold well_formed. intros Hwf.
  destruct (tool_call_parts tc) as [[[n a] id]|] eqn:Hparts; [clear Hwf|discriminate].
  assert (Hn : call_name tc = n) by (unfold call_name; now rewrite Hparts).
  assert (Ha : call_args tc = a) by (unfold call_args; now rewrite Hparts).
  assert (Hid : call_id tc = id) by (unfold call_id; now rewrite Hparts).
  unfold tool_call_parts in Hparts.
  destruct (f <~ getitem tc "function" ;; getitem f "name") as [n'|] eqn:En;
    [|discriminate].
  destruct (f <~ getitem tc "function" ;; getitem f "arguments") as [a'|] eqn:Ea;
    [|discriminate].
  destruct (getitem tc "id") as [id'|] eqn:Ei; [|discriminate].
  injection Hparts as -> -> ->.
  destruct (invoke_tool_run n a st) as (st1 & i & Hd & Hrun & Hc1 & Hm1 & Hf1).
  set (r := invocation_result itp n i) in *.
  set (st2 := {| world := world st1; calls := calls st1;
                 messages := messages st1
                             ++ [assistant_call_message tc; tool_message id r];
                 final_text := final_text st1 ++ [VStr (tool_fragment itp n r)] |}).
  destruct (follow_up_run st2) as (st3 & o & Hfu & Hc3 & Hm3 & Hf3).
  exists st3, i, o. split; [now rewrite Ha|]. split.
  - unfold handle_tool_call, bind, lift. rewrite En, Ea, Ei, Hrun.
    unfold append_text, extend_messages. simpl. exact Hfu.
  - rewrite Hc3, Hm3, Hf3. unfold st2. cbn [trace_events].
    unfold step_messages, step_lines, step_result.
    simpl. rewrite Hc1, Hm1, Hf1, Hn, Hid, <- !app_assoc. now repeat split.
Qed.

Lemma loop_run (tcs : list value) :
  forallb well_formed tcs = true ->
  forall st : state W,
  exists st' ss,
    map step_call ss = tcs
    /\ Forall (step_ok itp) ss
    /\ for_each tcs (handle_tool_call itp self s available_tools) st = (st', Ok tt)
    /\ calls st' = calls st ++ trace_events itp available_tools (messages st) ss
    /\ messages st' = messages st ++ flat_map (step_messages itp) ss
    /\ final_text st' = final_text st ++ flat_map (step_lines itp) ss.
Proof.
  induction tcs as [|tc tcs IH]; intros Hwf st.
  - exists st, []. simpl. rewrite !app_nil_r. repeat split. constructor.
  - simpl in Hwf. apply andb_true_iff in Hwf as [Htc Hwf].
    destruct (handle_tool_call_run tc st Htc)
      as (st1 & i & o & Hd & Hrun & Hc1 & Hm1 & Hf1).
    destruct (IH Hwf st1) as (st2 & ss & Hmap & Hok & Hloop & Hc2 & Hm2 & Hf2).
    exists st2, ({| step_call := tc; step_invocation := i; step_reply := o |} :: ss).
    split; [simpl; now rewrite Hmap|].
    split; [constructor; [split; assumption | assumption]|].
    split; [simpl; unfold bind; now rewrite Hrun|].
    rewrite Hc2, Hm2, Hf2, Hc1, Hm1, Hf1.
    simpl. rewrite <- !app_assoc. simpl. now repeat split.
Qed.

End Runs.

(** ** The initial exchange *)

Section Query.

Context {W : Type} (itp : Interp) (self : MCPClient W) (s : ClientSession W).
Variables (w w1 w2 : W) (query : string) (catalog : ListToolsResult).

Hypothesis Hsession : session self = Some s.
Hypothesis Hlist : list_tools s w = (w1, Ok catalog).

Lemma process_query_start (r0 : Response) :
post (http_client self) completions (initial_request query catalog) w1 = (w2, Ok r0) ->
process_query itp self query (initial_state w)
= report itp (process_response itp self s (catalog_entries catalog) r0
                (after_initial w2 query catalog (Ok r0))).
Proof.
intros Hpost.
unfold process_query. rewrite Hsession.
unfold bind, set_messages, try_except, process_query_try, bind,
  session_list_tools, get_messages, http_post, report.
simpl. rewrite Hlist. simpl.
fold (catalog_entries catalog). fold (initial_request query catalog).
rewrite Hpost. reflexivity.
Qed.

End Query.

(** ** From the assistant message to the answer *)

Section Answer.

Context {W : Type} (itp : Interp) (self : MCPClient W) (s : ClientSession W).
Variable available_tools : list value.

Lemma choice_message_inv (r : Response) (m : list (string * value)) :
  choice_message r = Some m ->
  status_code r = 200%Z
  /\ exists body choice rest,
       json r = Ok (VDict body)
       /\ lookup "choices" body = Some (VList (VDict choice :: rest))
       /\ dict_get (VDict choice) "message" (VDict []) = Ok (VDict m).
Proof.
  unfold choice_message.
  destruct (status_code r =? 200)%Z eqn:Hs; [|discriminate].
  apply Z.eqb_eq in Hs.
  destruct (json r) as [[| | | | | |body|]|]; try discriminate.
  destruct (lookup "choices" body) as [[| | | | |[|[| | | | | |choice|] rest]| |]|] eqn:Hc;
    try discriminate.
  intros H. split; [exact Hs|]. exists body, choice, rest.
  split; [reflexivity|]. split; [exact Hc|]. simpl.
  destruct (lookup "message" choice) as [[| | | | | |m'|]|]; try discriminate;
    injection H as <-; reflexivity.
Qed.

(** lines 146-149 *)
Lemma content_step (m : list (string * value)) (st : state W) :
  (c <- lift (dict_get (VDict m) "content" VNone) ;;
   (if truthy c
    then (c' <- lift (getitem (VDict m) "content") ;; append_text c')
    else ret tt)) st
  = ({| world := world st; calls := calls st; messages := messages st;
        final_text := final_text st ++ initial_lines m |}, Ok tt).
Proof.
  unfold bind, lift, initial_lines, append_text, ret. simpl.
  destruct (lookup "content" m) as [c|]; simpl.
  - destruct (truthy c); simpl; [reflexivity|].
    rewrite app_nil_r. now destruct st.
  - rewrite app_nil_r. now destruct st.
Qed.

Lemma answer_from_message (body choice m : list (string * value)) (rest : list value)
    (st : state W) :
  lookup "choices" body = Some (VList (VDict choice :: rest)) ->
  dict_get (VDict choice) "message" (VDict []) = Ok (VDict m) ->
  answer_from itp self s available_tools (VDict body) st
  = ((has_tool_calls <- lift (py_in "tool_calls" (VDict m)) ;;
      (if has_tool_calls
       then (tool_calls <- lift (getitem (VDict m) "tool_calls") ;;
             l <- lift (py_iter tool_calls) ;;
             for_each l (handle_tool_call itp self s available_tools))
       else ret tt)) ;;
     lines <- get_final_text ;;
     lift (str_join newline (filter truthy lines)))
      {| world := world st; calls := calls st; messages := messages st;
         final_text := final_text st ++ initial_lines m |}.
Proof.
  intros Hc Hm. unfold answer_from.
  unfold bind at 1, lift at 1. cbn [getitem]. rewrite Hc.
  unfold bind at 1, lift at 1. cbn [getitem0].
  unfold bind at 1, lift at 1. rewrite Hm.
  pose proof (content_step m st) as Hstep.
  unfold bind at 1 in Hstep.
  unfold bind at 1. unfold bind at 1.
  destruct (lift (dict_get (VDict m) "content" VNone) st) as [st1 [c|e]] eqn:E.
  - rewrite Hstep. reflexivity.
  - discriminate.
Qed.

End Answer.

(** ** Reading the trace of the loop *)

Lemma tool_invocations_app (l1 l2 : list event) :
  tool_invocations (l1 ++ l2) = tool_invocations l1 ++ tool_invocations l2.
Proof.
  apply flat_map_app.
Qed.

Lemma posts_app (l1 l2 : list event) : posts (l1 ++ l2) = posts l1 ++ posts l2.
Proof.
  apply flat_map_app.
Qed.

Lemma tool_invocations_trace (itp : Interp) (avail : list value) (ss : list step) :
  Forall (step_ok itp) ss ->
  forall h,
    tool_invocations (trace_events itp avail h ss)
    = expected_invocations itp (map step_call ss).
Proof.
  induction 1 as [|s ss [_ Hd] _ IH]; intros h; [reflexivity|].
  cbn [trace_events map]. rewrite tool_invocations_app.
  change (expected_invocations itp (step_call s :: map step_call ss))
    with ((match parse_arguments itp (call_args (step_call s)) with
           | Ok p => [(call_name (step_call s), p)]
           | Raise _ => []
           end) ++ expected_invocations itp (map step_call ss)).
  rewrite <- (IH (h ++ step_messages itp s)).
  destruct (step_invocation s) as [e|p o]; simpl in Hd |- *; now rewrite Hd.
Qed.

Lemma posts_trace (itp : Interp) (avail : list value) (ss : list step) :
  forall h, map snd (posts (trace_events itp avail h ss)) = map step_reply ss.
Proof.
  induction ss as [|s ss IH]; intros h; [reflexivity|].
  cbn [trace_events]. rewrite posts_app.
  assert (E : posts (invocation_events (call_name (step_call s)) (step_invocation s)) = [])
    by (destruct (step_invocation s); reflexivity).
  rewrite E. simpl. now rewrite IH.
Qed.

Lemma answered_id_trace (itp : Interp) (avail : list value) (ss : list step) :
  forall h,
    map (fun po => answered_id (fst po)) (posts (trace_events itp avail h ss))
    = map (fun s => Some (call_id (step_call s))) ss.
Proof.
  induction ss as [|s ss IH]; intros h; [reflexivity|].
  cbn [trace_events]. rewrite posts_app.
  assert (E : posts (invocation_events (call_name (step_call s)) (step_invocation s)) = [])
    by (destruct (step_invocation s); reflexivity).
  rewrite E. cbn [app posts flat_map map fst]. rewrite IH. f_equal.
  unfold answered_id, sent_messages, followup_payload, step_messages.
  cbn [getitem lookup String.eqb Ascii.eqb Bool.eqb].
  change (h ++ [assistant_call_message (step_call s);
                tool_message (call_id (step_call s)) (step_result itp s)])
    with (h ++ [assistant_call_message (step_call s)]
            ++ [tool_message (call_id (step_call s)) (step_result itp s)]).
  rewrite app_assoc, last_last. reflexivity.
Qed.

Lemma in_trace_call (itp : Interp) (avail : list value) (ss : list step)
    (n a : value) (o : outcome CallToolResult) :
  forall h,
    In (CallTool n a o) (trace_events itp avail h ss) ->
    exists s, In s ss /\ n = call_name (step_call s) /\ step_invocation s = Invoked a o.
Proof.
  induction ss as [|s ss IH]; intros h HIn; [destruct HIn|].
  cbn [trace_events] in HIn. apply in_app_or in HIn as [HIn|[HIn|HIn]].
  - exists s. split; [now left|].
    destruct (step_invocation s) as [e|p o']; simpl in HIn; [destruct HIn|].
    destruct HIn as [[= -> -> ->]|[]]. now split.
  - discriminate.
  - destruct (IH _ HIn) as (s' & Hs' & Hrest). exists s'. split; [now right | exact Hrest].
Qed.


Lemma in_step_lines (itp : Interp) (ss : list step) (s : step) (v : value) :
  In s ss -> In v (step_lines itp s) -> In v (flat_map (step_lines itp) ss).
Proof.
  intros Hs Hv. apply in_flat_map. now exists s.
Qed.

Lemma in_step_messages (itp : Interp) (ss : list step) (s : step) (v : value) :
  In s ss -> In v (step_messages itp s) -> In v (flat_map (step_messages itp) ss).
Proof.
  intros Hs Hv. apply in_flat_map. now exists s.
Qed.

Lemma history_steps (itp : Interp) (query : string) (ss : list step) :
  user_message query :: flat_map (step_messages itp) ss
  = history query (combine (map step_call ss) (map (step_result itp) ss)).
Proof.
  unfold history. f_equal.
  induction ss as [|s ss IH]; [reflexivity|]. simpl. now rewrite IH.
Qed.

(** ** The response to the initial request *)

Section Validation.

Context {W : Type} (itp : Interp) (self : MCPClient W) (s : ClientSession W).
Variable available_tools : list value.

Lemma process_response_status (r : Response) (st : state W) :
  status_code r <> 200%Z ->
  process_response itp self s available_tools r st
  = (st, Ok ("Error from OpenRouter API: " +++ text r)).
Proof.
  intros H. unfold process_response.
  apply Z.eqb_neq in H. now rewrite H.
Qed.

Lemma process_response_error (r : Response) (body : list (string * value))
    (err : value) (st : state W) :
  status_code r = 200%Z ->
  json r = Ok (VDict body) ->
  lookup "error" body = Some err ->
  process_response itp self s available_tools r st
  = (st, Ok ("Error from OpenRouter: " +++ py_str itp err)).
Proof.
  intros Hs Hj He. unfold process_response, bind, lift, ret.
  rewrite Hs, Hj. simpl. now rewrite He.
Qed.

Lemma process_response_invalid (r : Response) (body : list (string * value))
    (st : state W) :
  status_code r = 200%Z ->
  json r = Ok (VDict body) ->
  lookup "error" body = None ->
  lacks_choices body = true ->
  process_response itp self s available_tools r st
  = (st, Ok "Invalid response received from API").
Proof.
  intros Hs Hj He Hl. unfold process_response, bind, lift, ret.
  rewrite Hs, Hj. simpl. rewrite He. simpl.
  unfold lacks_choices in Hl.
  destruct (lookup "choices" body) as [c|]; simpl; [now rewrite Hl | reflexivity].
Qed.

Lemma process_response_valid (r : Response) (body : list (string * value))
    (c : value) (st : state W) :
  status_code r = 200%Z ->
  json r = Ok (VDict body) ->
  lookup "error" body = None ->
  lookup "choices" body = Some c ->
  truthy c = true ->
  process_response itp self s available_tools r st
  = answer_from itp self s available_tools (VDict body) st.
Proof.
  intros Hs Hj He Hc Ht. unfold process_response, bind, lift, ret.
  rewrite Hs, Hj. simpl. rewrite He. simpl. rewrite Hc. simpl. now rewrite Ht.
Qed.

(** a truthy [choices] that is not a list with a first element makes
    line 146 raise *)
Lemma answer_from_raises (body : list (string * value)) (c : value) (st : state W) :
  lookup "choices" body = Some c ->
  truthy c = true ->
  choices_list body = None ->
  exists e, answer_from itp self s available_tools (VDict body) st = (st, Raise e).
Proof.
  intros Hc Ht Hl. unfold choices_list in Hl. rewrite Hc in Hl.
  unfold answer_from, bind, lift. simpl. rewrite Hc.
  destruct c as [| | | |x|l|d|]; simpl; try (eexists; reflexivity).
  - destruct x; [discriminate|]. simpl. eexists; reflexivity.
  - destruct l; discriminate.
Qed.

End Validation.

(** ** A batch of tool calls *)

Section Batch.

Context {W : Type} (itp : Interp) (self : MCPClient W) (s : ClientSession W).
Variables (w w1 w2 : W) (query : string) (catalog : ListToolsResult).
Variables (r0 : Response) (m : list (string * value)) (tcs : list value).

Hypothesis Hsession : session self = Some s.
Hypothesis Hlist : list_tools s w = (w1, Ok catalog).
Hypothesis Hpost :
  post (http_client self) completions (initial_request query catalog) w1 = (w2, Ok r0).
Hypothesis Hmessage : choice_message r0 = Some m.
Hypothesis Herror : error_field r0 = None.
Hypothesis Hcalls : lookup "tool_calls" m = Some (VList tcs).
Hypothesis Hwf : forallb well_formed tcs = true.

Lemma batch_run :
  exists st' ss,
    map step_call ss = tcs
    /\ Forall (step_ok itp) ss
    /\ process_query itp self query (initial_state w)
       = report itp (st', str_join newline (final_text st'))
    /\ calls st'
       = ListTools (Ok catalog)
         :: Post completions (initial_request query catalog) (Ok r0)
         :: trace_events itp (catalog_entries catalog) [user_message query] ss
    /\ messages st' = user_message query :: flat_map (step_messages itp) ss
    /\ final_text st' = initial_lines m ++ flat_map (step_lines itp) ss.
Proof.
  destruct (choice_message_inv _ Hmessage) as (Hs & body & choice & rest & Hj & Hc & Hm).
  unfold error_field in Herror. rewrite Hj in Herror.
  rewrite (@process_query_start W itp self s w w1 w2 query catalog Hsession Hlist r0 Hpost).
  rewrite (@process_response_valid W itp self s _ r0 body _ _ Hs Hj Herror Hc eq_refl).
  rewrite (@answer_from_message W itp self s _ body choice m rest _ Hc Hm).
  set (st0 := {| world := world (after_initial w2 query catalog (Ok r0));
                 calls := calls (after_initial w2 query catalog (Ok r0));
                 messages := messages (after_initial w2 query catalog (Ok r0));
                 final_text := final_text (after_initial w2 query catalog (Ok r0))
                               ++ initial_lines m |}).
  destruct (loop_run itp self s (catalog_entries catalog) tcs Hwf st0)
    as (st' & ss & Hmap & Hok & Hloop & Hc' & Hm' & Hf').
  exists st', ss. split; [exact Hmap|]. split; [exact Hok|].
  assert (Hfilter : filter truthy (final_text st') = final_text st').
  { apply filter_all. rewrite Hf'. simpl.
    now rewrite forallb_app, initial_lines_truthy, step_lines_truthy. }
  split.
  - unfold bind at 1. unfold bind at 1. unfold lift at 1. simpl py_in.
    rewrite Hcalls. unfold bind at 1. unfold lift at 1. simpl getitem. rewrite Hcalls.
    unfold bind at 1. unfold lift at 1. simpl py_iter. cbv iota beta. rewrite Hloop.
    unfold bind, get_final_text, lift. now rewrite Hfilter.
  - rewrite Hc', Hm', Hf'. now repeat split.
Qed.

Lemma batch_calls (st' : state W) (ss : list step) :
  map step_call ss = tcs ->
  Forall (step_ok itp) ss ->
  calls st'
  = ListTools (Ok catalog)
    :: Post completions (initial_request query catalog) (Ok r0)
    :: trace_events itp (catalog_entries catalog) [user_message query] ss ->
  tool_invocations (calls st') = expected_invocations itp tcs
  /\ followups (calls st')
     = posts (trace_events itp (catalog_entries catalog) [user_message query] ss).
Proof.
  intros Hmap Hok ->. split; [|reflexivity].
  cbn [tool_invocations flat_map app].
  fold (tool_invocations
          (trace_events itp (catalog_entries catalog) [user_message query] ss)).
  now rewrite (tool_invocations_trace _ Hok), Hmap.
Qed.

Lemma expected_invocations_length (l : list value) :
  List.length (expected_invocations itp l) <= List.length l.
Proof.
  induction l as [|tc l IH]; [apply Nat.le_refl|].
  change (expected_invocations itp (tc :: l))
    with ((match parse_arguments itp (call_args tc) with
           | Ok p => [(call_name tc, p)]
           | Raise _ => []
           end) ++ expected_invocations itp l).
  rewrite length_app. destruct (parse_arguments itp (call_args tc)); simpl; lia.
Qed.

Lemma expected_invocations_all (l : list value) :
  Forall (fun tc => exists p, parse_arguments itp (call_args tc) = Ok p) l ->
  List.length (expected_invocations itp l) = List.length l.
Proof.
  induction 1 as [|tc l [p Hp] _ IH]; [reflexivity|].
  change (expected_invocations itp (tc :: l))
    with ((match parse_arguments itp (call_args tc) with
           | Ok p => [(call_name tc, p)]
           | Raise _ => []
           end) ++ expected_invocations itp l).
  rewrite Hp. simpl. now rewrite IH.
Qed.

(** C2, as amended.  For an assistant message carrying N well-formed
    tool-call requests, the tool invocations made are, in the order of the
    requests, one for each request whose arguments are not text or decode,
    and none for a request whose arguments fail to decode: at most N, and
    exactly N when all arguments decode.  One follow-up request is made
    per tool call, N in all, the i-th answering the i-th tool call. *)
Theorem tool_calls_in_order :
  let st' := fst (process_query itp self query (initial_state w)) in
  tool_invocations (calls st') = expected_invocations itp tcs
  /\ List.length (tool_invocations (calls st')) <= List.length tcs
  /\ (Forall (fun tc => exists p, parse_arguments itp (call_args tc) = Ok p) tcs ->
      List.length (tool_invocations (calls st')) = List.length tcs)
  /\ List.length (followups (calls st')) = List.length tcs
  /\ map (fun po => answered_id (fst po)) (followups (calls st'))
     = map (fun tc => Some (call_id tc)) tcs.
Proof.
  destruct batch_run as (st' & ss & Hmap & Hok & Hrun & Hc & _ & _).
  cbv zeta. rewrite Hrun, fst_report.
  destruct (batch_calls _ Hmap Hok Hc) as [Hinv Hfu].
  rewrite Hinv, Hfu. split; [reflexivity|].
  split; [apply expected_invocations_length|].
  split; [apply expected_invocations_all|].
  split.
  - now rewrite <- (length_map snd), posts_trace, length_map, <- Hmap, length_map.
  - rewrite answered_id_trace, <- Hmap. now rewrite map_map.
Qed.

(** C10.  Along a batch of well-formed tool calls, the output grows, for
    each tool call in turn, by the fragment of the tool result followed by
    what its follow-up contributes; a follow-up answered with status 200 by
    a body that has no [choices], or an empty or null one, whether or not
    the body has an [error] field, contributes nothing, neither content nor
    error fragment, and the remaining tool calls are processed: every tool
    call has its follow-up and its pair of messages in the history. *)
Theorem malformed_followup_is_skipped :
  let st' := fst (process_query itp self query (initial_state w)) in
  exists results,
    List.length results = List.length tcs
    /\ List.length (followups (calls st')) = List.length tcs
    /\ messages st' = history query (combine tcs results)
    /\ final_text st'
       = initial_lines m
         ++ flat_map (fun x => VStr (tool_fragment itp (call_name (fst (fst x)))
                                      (snd (fst x)))
                               :: followup_lines itp (snd (snd x)))
              (combine (combine tcs results) (followups (calls st')))
    /\ snd (process_query itp self query (initial_state w))
       = snd (report itp (st', str_join newline (final_text st')))
    /\ forall p r body,
         In (p, Ok r) (followups (calls st')) ->
         status_code r = 200%Z ->
         json r = Ok (VDict body) ->
         lacks_choices body = true ->
         followup_lines itp (Ok r) = [].
Proof.
  destruct batch_run as (st' & ss & Hmap & Hok & Hrun & Hc & Hm & Hf).
  cbv zeta. rewrite Hrun, fst_report.
  assert (Hfu : followups (calls st')
                = posts (trace_events itp (catalog_entries catalog)
                           [user_message query] ss)) by now rewrite Hc.
  exists (map (step_result itp) ss).
  split; [now rewrite length_map, <- Hmap, length_map|].
  split; [now rewrite Hfu, <- (length_map snd), posts_trace, length_map, <- Hmap,
            length_map|].
  split; [now rewrite Hm, history_steps, Hmap|].
  split.
  - rewrite Hf, Hfu, <- Hmap. f_equal. clear.
    generalize [user_message query] as h.
    induction ss as [|x ss IH]; intros h; [reflexivity|].
    cbn [trace_events]. rewrite posts_app.
    assert (E : posts (invocation_events (call_name (step_call x)) (step_invocation x))
                = []) by (destruct (step_invocation x); reflexivity).
    rewrite E. simpl. now rewrite <- IH.
  - split; [reflexivity|].
    intros p r body _ Hs Hj Hl. unfold followup_lines, followup_content. simpl.
    rewrite Hs, Hj. simpl. unfold lacks_choices in Hl.
    destruct (lookup "choices" body) as [c|]; simpl; [|reflexivity].
    apply negb_true_iff in Hl. now rewrite Hl.
Qed.

(** the tool calls are carried by an assistant message whose own content,
    and the content of the replies to the follow-up requests, are text *)
Hypothesis Htext0 : forallb is_str (initial_lines m) = true.
Hypothesis Htext :
  forallb (fun po => forallb is_str (followup_lines itp (snd po)))
    (followups (calls (fst (process_query itp self query (initial_state w))))) = true.

Lemma batch_output :
  exists st' ss lines,
    map step_call ss = tcs
    /\ Forall (step_ok itp) ss
    /\ process_query itp self query (initial_state w)
       = (st', Ok (String.concat newline lines))
    /\ calls st'
       = ListTools (Ok catalog)
         :: Post completions (initial_request query catalog) (Ok r0)
         :: trace_events itp (catalog_entries catalog) [user_message query] ss
    /\ messages st' = user_message query :: flat_map (step_messages itp) ss
    /\ final_text st' = initial_lines m ++ flat_map (step_lines itp) ss
    /\ final_text st' = map VStr lines.
Proof.
  destruct batch_run as (st' & ss & Hmap & Hok & Hrun & Hc & Hm & Hf).
  assert (Hstr : forallb is_str (final_text st') = true).
  { rewrite Hf, forallb_app, Htext0. simpl.
    rewrite Hrun, fst_report, Hc in Htext.
    unfold followups in Htext. cbn [posts flat_map app tl] in Htext.
    fold (posts (trace_events itp (catalog_entries catalog) [user_message query] ss))
      in Htext.
    rewrite <- (forallb_of_map snd (fun o => forallb is_str (followup_lines itp o))),
      posts_trace in Htext.
    clear - Htext. induction ss as [|x ss IH]; [reflexivity|].
    simpl in Htext |- *. apply andb_true_iff in Htext as [Hx Hss].
    now rewrite forallb_app, Hx, IH. }
  destruct (all_str_map _ Hstr) as [lines Hlines].
  exists st', ss, lines. repeat (split; [assumption|]).
  split; [|now repeat split].
  rewrite Hrun, Hlines. unfold str_join. now rewrite join_items_strs.
Qed.

Lemma in_output (st' : state W) (lines : list string) (x : string) :
  final_text st' = map VStr lines ->
  In (VStr x) (final_text st') ->
  appears_in x (String.concat newline lines).
Proof.
  intros -> HIn. apply appears_in_concat.
  apply in_map_iff in HIn as (y & [= ->] & HIn). exact HIn.
Qed.

Lemma in_expected_invocations (tc p : value) :
  In tc tcs ->
  parse_arguments itp (call_args tc) = Ok p ->
  In (call_name tc, p) (expected_invocations itp tcs).
Proof.
  intros HIn Hp. apply in_flat_map. exists tc. split; [exact HIn|].
  rewrite Hp. now left.
Qed.

(** C3.  Along a batch of well-formed tool calls, every invocation of
    the Tool Session that fails is turned into the result text
    [Error executing tool <name>: <message>] for that call, which
    appears in the returned output inside the fragment of that call; the
    invocations made are those of all the calls of the batch, in order,
    whatever the outcome of the others, and the result of each of them
    appears in the returned output. *)
Theorem tool_failure_is_contained :
  let st' := fst (process_query itp self query (initial_state w)) in
  exists out,
    snd (process_query itp self query (initial_state w)) = Ok out
    /\ tool_invocations (calls st') = expected_invocations itp tcs
    /\ (forall n a e,
          In (CallTool n a (Raise e)) (calls st') ->
          appears_in (tool_fragment itp n (VStr (tool_error_text itp n e))) out)
    /\ (forall n a o,
          In (CallTool n a o) (calls st') ->
          appears_in (tool_fragment itp n (tool_result_of itp n o)) out).
Proof.
  destruct batch_output as (st' & ss & lines & Hmap & Hok & Hrun & Hc & Hm & Hf & Hl).
  destruct (batch_calls _ Hmap Hok Hc) as [Hinv _].
  cbv zeta. rewrite Hrun. cbn [fst snd].
  exists (String.concat newline lines).
  split; [reflexivity|]. split; [exact Hinv|].
  assert (Hall : forall n a o,
             In (CallTool n a o) (calls st') ->
             appears_in (tool_fragment itp n (tool_result_of itp n o))
               (String.concat newline lines)).
  { intros n a o HIn. rewrite Hc in HIn.
    destruct HIn as [HIn|[HIn|HIn]]; try discriminate.
    apply in_trace_call in HIn as (x & Hx & -> & Hi).
    eapply in_output; [exact Hl|]. rewrite Hf. apply in_or_app. right.
    eapply in_step_lines; [exact Hx|]. left.
    unfold step_result. now rewrite Hi. }
  split; [|exact Hall].
  intros n a e HIn. exact (Hall n a (Raise e) HIn).
Qed.

(** C6.  Along a batch of well-formed tool calls: arguments that are
    not text are passed to the invocation unchanged; arguments that are
    text are decoded and the invocation receives the decoded value; when
    the decoding fails, the failure becomes that call's result text, in the
    history and in the returned output, and the query is not aborted: it
    returns the accumulated output, with the messages of every tool call
    of the batch in the history. *)
Theorem arguments_are_decoded :
  let st' := fst (process_query itp self query (initial_state w)) in
  exists out lines,
    snd (process_query itp self query (initial_state w)) = Ok out
    /\ out = String.concat newline lines
    /\ final_text st' = map VStr lines
    /\ List.length (messages st') = 1 + 2 * List.length tcs
    /\ forall tc,
         In tc tcs ->
         (is_str (call_args tc) = false ->
          In (call_name tc, call_args tc) (tool_invocations (calls st')))
         /\ (forall t p,
               call_args tc = VStr t -> json_loads itp t = Ok p ->
               In (call_name tc, p) (tool_invocations (calls st')))
         /\ (forall t e,
               call_args tc = VStr t -> json_loads itp t = Raise e ->
               In (tool_message (call_id tc)
                     (VStr (tool_error_text itp (call_name tc) e))) (messages st')
               /\ appears_in (tool_fragment itp (call_name tc)
                                (VStr (tool_error_text itp (call_name tc) e))) out).
Proof.
  destruct batch_output as (st' & ss & lines & Hmap & Hok & Hrun & Hc & Hm & Hf & Hl).
  destruct (batch_calls _ Hmap Hok Hc) as [Hinv _].
  cbv zeta. rewrite Hrun. cbn [fst snd]. rewrite Hinv.
  exists (String.concat newline lines), lines.
  split; [reflexivity|]. split; [reflexivity|]. split; [exact Hl|].
  split.
  { rewrite Hm, <- Hmap. clear. simpl. f_equal.
    induction ss as [|x ss IH]; [reflexivity|]. simpl. rewrite IH. lia. }
  intros tc HIn. split; [|split].
  - intros Hns. apply in_expected_invocations; [exact HIn|].
    destruct (call_args tc); try reflexivity. discriminate.
  - intros t p Ha Hp. apply in_expected_invocations; [exact HIn|].
    now rewrite Ha.
  - intros t e Ha He.
    rewrite <- Hmap in HIn. apply in_map_iff in HIn as (x & <- & Hx).
    assert (Hres : step_result itp x
                   = VStr (tool_error_text itp (call_name (step_call x)) e)).
    { rewrite Forall_forall in Hok. destruct (Hok x Hx) as [_ Hd].
      unfold step_result. rewrite Ha in Hd.
      destruct (step_invocation x) as [e'|p o]; simpl in Hd |- *.
      - rewrite He in Hd. now injection Hd as ->.
      - rewrite He in Hd. discriminate. }
    split.
    + rewrite Hm. right. eapply in_step_messages; [exact Hx|].
      unfold step_messages. rewrite Hres. right. now left.
    + eapply in_output; [exact Hl|]. rewrite Hf. apply in_or_app. right.
      eapply in_step_lines; [exact Hx|]. left. now rewrite Hres.
Qed.


End Batch.

(** ** Queries settled by the initial response *)

Section Initial.

Context {W : Type} (itp : Interp) (self : MCPClient W) (s : ClientSession W).
Variables (w w1 w2 : W) (query : string) (catalog : ListToolsResult).
Variable r0 : Response.

Hypothesis Hsession : session self = Some s.
Hypothesis Hlist : list_tools s w = (w1, Ok catalog).
Hypothesis Hpost :
  post (http_client self) completions (initial_request query catalog) w1 = (w2, Ok r0).

(** C1, as amended.  When the initial response has status 200 and a
    body with no top-level [error] field and a non-empty [choices] list,
    and the assistant message of its first choice has a text [content] and
    no [tool_calls] (the key is absent, or its list is empty), the query
    returns exactly that text; no tool is invoked and no follow-up request
    is made. *)
Theorem plain_answer_is_returned (m : list (string * value)) (c : string) :
  choice_message r0 = Some m ->
  error_field r0 = None ->
  lookup "content" m = Some (VStr c) ->
  lookup "tool_calls" m = None \/ lookup "tool_calls" m = Some (VList []) ->
  let st' := fst (process_query itp self query (initial_state w)) in
  snd (process_query itp self query (initial_state w)) = Ok c
  /\ tool_invocations (calls st') = []
  /\ followups (calls st') = []
  /\ messages st' = [user_message query].
Proof.
  intros Hmessage Herror Hcontent Hnone.
  destruct (choice_message_inv _ Hmessage) as (Hs & body & choice & rest & Hj & Hc & Hm).
  unfold error_field in Herror. rewrite Hj in Herror.
  cbv zeta.
  rewrite (@process_query_start W itp self s w w1 w2 query catalog Hsession Hlist r0 Hpost).
  rewrite (@process_response_valid W itp self s _ r0 body _ _ Hs Hj Herror Hc eq_refl).
  rewrite (@answer_from_message W itp self s _ body choice m rest _ Hc Hm).
  unfold bind, lift, get_final_text, ret. simpl py_in. simpl getitem.
  unfold initial_lines. rewrite Hcontent.
  destruct Hnone as [Hnone|Hnone]; rewrite Hnone; cbv iota beta;
    destruct c as [|a c]; simpl; rewrite ?Hnone; simpl; now repeat split.
Qed.

(** C4, as amended.  When the initial response has a status other than
    200, the query returns [Error from OpenRouter API: ] followed by the
    raw body of the response, whatever the status; no tool is invoked,
    no follow-up request is made, and the history holds the user message
    only. *)
Theorem failed_status_is_reported :
  status_code r0 <> 200%Z ->
  let st' := fst (process_query itp self query (initial_state w)) in
  snd (process_query itp self query (initial_state w))
  = Ok ("Error from OpenRouter API: " +++ text r0)
  /\ tool_invocations (calls st') = []
  /\ followups (calls st') = []
  /\ messages st' = [user_message query].
Proof.
  intros Hs. cbv zeta.
  rewrite (@process_query_start W itp self s w w1 w2 query catalog Hsession Hlist r0 Hpost).
  rewrite (process_response_status itp self s _ _ _ Hs).
  now repeat split.
Qed.

(** C5.  When the initial response has status 200 and its body is an
    object that has a top-level [error] field, or that has no non-empty
    [choices] list, the query ends there: it returns one of the error
    reports, no tool is invoked and no follow-up request is made.  With an
    [error] field the report is [Error from OpenRouter: ] followed by
    [str] of the field, which for a text is the text itself; without one,
    and with [choices] absent, empty or null, it is
    [Invalid response received from API]. *)
Theorem malformed_response_is_reported (body : list (string * value)) :
  status_code r0 = 200%Z ->
  json r0 = Ok (VDict body) ->
  lookup "error" body <> None \/ choices_list body = None ->
  let st' := fst (process_query itp self query (initial_state w)) in
  exists out,
    snd (process_query itp self query (initial_state w)) = Ok out
    /\ error_report out
    /\ tool_invocations (calls st') = []
    /\ followups (calls st') = []
    /\ messages st' = [user_message query]
    /\ (forall err, lookup "error" body = Some err ->
                    out = "Error from OpenRouter: " +++ py_str itp err)
    /\ (forall t, lookup "error" body = Some (VStr t) ->
                  out = "Error from OpenRouter: " +++ t)
    /\ (lookup "error" body = None -> lacks_choices body = true ->
        out = "Invalid response received from API").
Proof.
  intros Hs Hj Hbad. cbv zeta.
  rewrite (@process_query_start W itp self s w w1 w2 query catalog Hsession Hlist r0 Hpost).
  destruct (lookup "error" body) as [err|] eqn:He.
  - rewrite (process_response_error itp self s _ _ _ Hs Hj He).
    exists ("Error from OpenRouter: " +++ py_str itp err).
    split; [reflexivity|]. split; [left; eexists; reflexivity|].
    repeat (split; [reflexivity|]).
    split; [now intros ? [= ->]|]. split; [now intros ? [= ->] | discriminate].
  - destruct Hbad as [Hbad|Hnone]; [now destruct Hbad|].
    destruct (lacks_choices body) eqn:Hl.
    + rewrite (process_response_invalid itp self s _ _ _ Hs Hj He Hl).
      exists "Invalid response received from API".
      split; [reflexivity|]. split; [right; now left|].
      repeat (split; [reflexivity|]).
      split; [discriminate|]. split; [discriminate | reflexivity].
    + unfold lacks_choices in Hl.
      destruct (lookup "choices" body) as [c|] eqn:Hc; [|discriminate].
      apply negb_false_iff in Hl.
      rewrite (@process_response_valid W itp self s _ r0 body c _ Hs Hj He Hc Hl).
      destruct (answer_from_raises itp self s (catalog_entries catalog) body
                  (after_initial w2 query catalog (Ok r0)) Hc Hl Hnone) as [e Hr].
      rewrite Hr.
      exists ("Error processing query: " +++ exn_str itp e).
      split; [reflexivity|]. split; [right; right; eexists; reflexivity|].
      repeat (split; [reflexivity|]).
      split; [discriminate|]. split; discriminate.
Qed.

End Initial.

(** ** The history stays linked *)

Lemma linked_nil : linked [].
Proof.
  intros [|i] m H; discriminate.
Qed.

Lemma linked_user (query : string) : linked [user_message query].
Proof.
  intros [|[|i]] m H Hrole; try discriminate.
  injection H as <-. discriminate.
Qed.

Lemma linked_extend (h : list value) (tc i r : value) :
  linked h ->
  getitem tc "id" = Ok i ->
  linked (h ++ [assistant_call_message tc; tool_message i r]).
Proof.
  intros Hl Hid k m Hn Hrole.
  destruct (Nat.lt_ge_cases k (List.length h)) as [Hlt|Hge].
  - rewrite nth_error_app1 in Hn by exact Hlt.
    destruct (Hl k m Hn Hrole) as (j & prev & -> & Hj & Ha).
    exists j, prev. split; [reflexivity|]. split; [|exact Ha].
    rewrite nth_error_app1 by lia. exact Hj.
  - rewrite nth_error_app2 in Hn by exact Hge.
    destruct (k - List.length h) as [|[|d]] eqn:Hd; simpl in Hn.
    + injection Hn as <-. discriminate.
    + injection Hn as <-. exists (List.length h), (assistant_call_message tc).
      split; [lia|]. split.
      * rewrite nth_error_app2, Nat.sub_diag by lia. reflexivity.
      * exists [tc], tc, i. repeat split; try reflexivity; [now left | exact Hid].
    + destruct d; discriminate.
Qed.

Section Invariant.

Context {W : Type} (itp : Interp) (self : MCPClient W) (s : ClientSession W).

Lemma keeps_ret {A} (P : state W -> Prop) (a : A) : keeps P (ret a).
Proof.
  intros st st' o [= <- _] H. exact H.
Qed.

Lemma keeps_lift {A} (P : state W -> Prop) (o : outcome A) : keeps P (lift o).
Proof.
  intros st st' o' [= <- _] H. exact H.
Qed.

Lemma keeps_bind {A B} (P : state W -> Prop) (c : M W A) (k : A -> M W B) :
  keeps P c -> (forall a, keeps P (k a)) -> keeps P (bind c k).
Proof.
  intros Hc Hk st st' o Hrun HP. unfold bind in Hrun.
  destruct (c st) as [st1 [a|e]] eqn:E.
  - exact (Hk a _ _ _ Hrun (Hc _ _ _ E HP)).
  - injection Hrun as <- _. exact (Hc _ _ _ E HP).
Qed.

Lemma keeps_bind_lift {A B} (P : state W -> Prop) (o : outcome A) (k : A -> M W B) :
  (forall a, o = Ok a -> keeps P (k a)) -> keeps P (bind (lift o) k).
Proof.
  intros Hk st st' o' Hrun HP. unfold bind, lift in Hrun.
  destruct o as [a|e].
  - exact (Hk a eq_refl _ _ _ Hrun HP).
  - now injection Hrun as <- _.
Qed.

Lemma keeps_try_except {A} (P : state W -> Prop) (c : M W A) (h : exn -> M W A) :
  keeps P c -> (forall e, keeps P (h e)) -> keeps P (try_except c h).
Proof.
  intros Hc Hh st st' o Hrun HP. unfold try_except in Hrun.
  destruct (c st) as [st1 [a|e]] eqn:E.
  - injection Hrun as <- _. exact (Hc _ _ _ E HP).
  - exact (Hh e _ _ _ Hrun (Hc _ _ _ E HP)).
Qed.

Lemma keeps_for_each {A} (P : state W -> Prop) (l : list A) (body : A -> M W unit) :
  (forall x, keeps P (body x)) -> keeps P (for_each l body).
Proof.
  intros Hb. induction l as [|x l IH]; simpl.
  - apply keeps_ret.
  - apply keeps_bind; [apply Hb | intros _; exact IH].
Qed.

Lemma keeps_if {A} (P : state W -> Prop) (b : bool) (c1 c2 : M W A) :
  keeps P c1 -> keeps P c2 -> keeps P (if b then c1 else c2).
Proof.
  now destruct b.
Qed.

Lemma keeps_append_text (v : value) : keeps (@coherent W) (append_text v).
Proof.
  intros st st' o [= <- _] H. exact H.
Qed.

Lemma keeps_get_final_text : keeps (@coherent W) get_final_text.
Proof.
  intros st st' o [= <- _] H. exact H.
Qed.

Lemma requests_linked_snoc (log : list event) (ev : event) :
  requests_linked log ->
  (forall url p o, ev = Post url p o -> linked (sent_messages p)) ->
  requests_linked (log ++ [ev]).
Proof.
  intros Hlog Hev url p o HIn. apply in_app_or in HIn as [HIn|[HIn|[]]].
  - exact (Hlog _ _ _ HIn).
  - exact (Hev _ _ _ HIn).
Qed.

Lemma keeps_list_tools : keeps (@coherent W) (session_list_tools s).
Proof.
  intros st st' o Hrun [Hl Hr]. unfold session_list_tools in Hrun.
  destruct (list_tools s (world st)) as [w' o']. injection Hrun as <- _.
  split; [exact Hl|]. simpl. apply requests_linked_snoc; [exact Hr | discriminate].
Qed.

Lemma keeps_call_tool (n a : value) : keeps (@coherent W) (session_call_tool s n a).
Proof.
  intros st st' o Hrun [Hl Hr]. unfold session_call_tool in Hrun.
  destruct (call_tool s n a (world st)) as [w' o']. injection Hrun as <- _.
  split; [exact Hl|]. simpl. apply requests_linked_snoc; [exact Hr | discriminate].
Qed.

(** a request whose body carries the current [messages] *)
Lemma keeps_post_history {B} (url : string) (payload : list value -> value)
    (k : Response -> M W B) :
  (forall msgs, sent_messages (payload msgs) = msgs) ->
  (forall r, keeps (@coherent W) (k r)) ->
  keeps (@coherent W)
    (msgs <- get_messages ;; response <- http_post self url (payload msgs) ;; k response).
Proof.
  intros Hp Hk st st' o Hrun [Hl Hr].
  unfold bind at 1, get_messages in Hrun. unfold bind, http_post in Hrun.
  destruct (post (http_client self) url (payload (messages st)) (world st))
    as [w' [r|e]].
  - apply (Hk r _ _ _ Hrun). split; [exact Hl|]. simpl.
    apply requests_linked_snoc; [exact Hr|].
    intros ? ? ? [= _ <- _]. now rewrite Hp.
  - injection Hrun as <- _. split; [exact Hl|]. simpl.
    apply requests_linked_snoc; [exact Hr|].
    intros ? ? ? [= _ <- _]. now rewrite Hp.
Qed.

Lemma keeps_extend (tc i r : value) :
  getitem tc "id" = Ok i ->
  keeps (@coherent W) (extend_messages [assistant_call_message tc; tool_message i r]).
Proof.
  intros Hid st st' o [= <- _] [Hl Hr]. split; [|exact Hr].
  simpl. now apply linked_extend.
Qed.

Lemma keeps_invoke_tool (n a : value) : keeps (@coherent W) (invoke_tool itp s n a).
Proof.
  unfold invoke_tool. apply keeps_try_except.
  - apply keeps_bind; [apply keeps_lift|]. intros p.
    apply keeps_bind; [apply keeps_call_tool|]. intros r.
    apply keeps_bind; [apply keeps_lift|]. intros _. apply keeps_ret.
  - intros e. apply keeps_ret.
Qed.

Lemma keeps_follow_up (avail : list value) : keeps (@coherent W) (follow_up itp self avail).
Proof.
  unfold follow_up. apply keeps_try_except.
  - apply (keeps_post_history completions (fun msgs => followup_payload msgs avail)).
    + reflexivity.
    + intros r. apply keeps_bind; [apply keeps_lift|].
      intros [c|]; [apply keeps_append_text | apply keeps_ret].
  - intros e. apply keeps_append_text.
Qed.

Lemma keeps_handle_tool_call (avail : list value) (tc : value) :
  keeps (@coherent W) (handle_tool_call itp self s avail tc).
Proof.
  unfold handle_tool_call.
  apply keeps_bind; [apply keeps_lift|]. intros n.
  apply keeps_bind; [apply keeps_lift|]. intros a.
  apply keeps_bind_lift. intros i Hid.
  apply keeps_bind; [apply keeps_invoke_tool|]. intros r.
  apply keeps_bind; [apply keeps_append_text|]. intros _.
  apply keeps_bind; [now apply keeps_extend|]. intros _.
  apply keeps_follow_up.
Qed.

Lemma keeps_answer_from (avail : list value) (d : value) :
  keeps (@coherent W) (answer_from itp self s avail d).
Proof.
  unfold answer_from.
  repeat (apply keeps_bind; [apply keeps_lift|]; intros ?).
  apply keeps_bind.
  { apply keeps_if; [|apply keeps_ret].
    apply keeps_bind; [apply keeps_lift|]. intros ?. apply keeps_append_text. }
  intros _. apply keeps_bind; [apply keeps_lift|]. intros b.
  apply keeps_bind.
  { apply keeps_if; [|apply keeps_ret].
    apply keeps_bind; [apply keeps_lift|]. intros ?.
    apply keeps_bind; [apply keeps_lift|]. intros l.
    apply keeps_for_each. intros tc. apply keeps_handle_tool_call. }
  intros _. apply keeps_bind; [apply keeps_get_final_text|]. intros ?.
  apply keeps_lift.
Qed.

Lemma keeps_process_response (avail : list value) (r : Response) :
  keeps (@coherent W) (process_response itp self s avail r).
Proof.
  unfold process_response.
  apply keeps_if; [apply keeps_ret|].
  apply keeps_bind; [apply keeps_lift|]. intros d.
  apply keeps_bind; [apply keeps_lift|]. intros b.
  apply keeps_if.
  { apply keeps_bind; [apply keeps_lift|]. intros ?. apply keeps_ret. }
  apply keeps_bind; [apply keeps_lift|]. intros b'.
  apply keeps_bind.
  { apply keeps_if; [apply keeps_ret|].
    apply keeps_bind; [apply keeps_lift|]. intros ?. apply keeps_ret. }
  intros b''. apply keeps_if; [apply keeps_ret | apply keeps_answer_from].
Qed.

Lemma keeps_process_query_try : keeps (@coherent W) (process_query_try itp self s).
Proof.
  unfold process_query_try.
  apply keeps_bind; [apply keeps_list_tools|]. intros t.
  apply (keeps_post_history completions
           (fun msgs => initial_payload msgs (map tool_entry (tools t)))).
  - reflexivity.
  - intros r. apply keeps_process_response.
Qed.

End Invariant.

(** ** The tool calls that are processed *)

Lemma for_each_app {W A} (l1 l2 : list A) (body : A -> M W unit) (st st1 : state W) :
  for_each l1 body st = (st1, Ok tt) ->
  for_each (l1 ++ l2) body st = for_each l2 body st1.
Proof.
  revert st. induction l1 as [|x l1 IH]; intros st H.
  - now injection H as ->.
  - simpl in H |- *. unfold bind in H |- *.
    destruct (body x st) as [st' [[]|e]]; [|discriminate].
    exact (IH _ H).
Qed.

Lemma handle_malformed {W} (itp : Interp) (self : MCPClient W) (s : ClientSession W)
    (avail : list value) (tc : value) :
  well_formed tc = false ->
  exists e, forall st, handle_tool_call itp self s avail tc st = (st, Raise e).
Proof.
  unfold well_formed, tool_call_parts, handle_tool_call, bind, lift.
  destruct (f <~ getitem tc "function" ;; getitem f "name") as [n|e1];
    [|intros _; now exists e1].
  destruct (f <~ getitem tc "function" ;; getitem f "arguments") as [a|e2];
    [|intros _; now exists e2].
  destruct (getitem tc "id") as [i|e3]; [discriminate|].
  intros _. now exists e3.
Qed.

Lemma processed_split (tcs : list value) :
  exists rest,
    tcs = processed tcs ++ rest
    /\ forallb well_formed (processed tcs) = true
    /\ match rest with
       | [] => True
       | bad :: _ => well_formed bad = false
       end.
Proof.
  induction tcs as [|tc tcs (rest & Heq & Hwf & Hrest)].
  - now exists [].
  - simpl. destruct (well_formed tc) eqn:Htc.
    + exists rest. simpl. rewrite Htc, Hwf. now rewrite <- Heq.
    + now exists (tc :: tcs).
Qed.

Lemma well_formed_id (tc : value) :
  well_formed tc = true -> getitem tc "id" = Ok (call_id tc).
Proof.
  unfold well_formed, call_id, tool_call_parts.
  destruct (f <~ getitem tc "function" ;; getitem f "name"); [|discriminate].
  destruct (f <~ getitem tc "function" ;; getitem f "arguments"); [|discriminate].
  now destruct (getitem tc "id").
Qed.

Lemma in_trace_invoked (itp : Interp) (avail : list value) (ss : list step)
    (s : step) (p : value) (o : outcome CallToolResult) :
  In s ss ->
  step_invocation s = Invoked p o ->
  forall h, In (CallTool (call_name (step_call s)) p o) (trace_events itp avail h ss).
Proof.
  induction ss as [|s' ss IH]; intros HIn Hinv h; [destruct HIn|].
  cbn [trace_events]. apply in_or_app. destruct HIn as [->|HIn].
  - left. rewrite Hinv. now left.
  - right. right. now apply IH.
Qed.

Lemma step_result_of_call (itp : Interp) (log : list event) (s : step) :
  step_ok itp s ->
  (forall p o, step_invocation s = Invoked p o ->
               In (CallTool (call_name (step_call s)) p o) log) ->
  result_of_call itp log (step_call s) (step_result itp s).
Proof.
  intros [_ Hdec] Hlog. unfold result_of_call, step_result.
  destruct (step_invocation s) as [e|p o]; simpl in Hdec |- *; rewrite Hdec.
  - reflexivity.
  - exists o. split; [now apply Hlog | reflexivity].
Qed.

Section Processed.

Context {W : Type} (itp : Interp) (self : MCPClient W) (s : ClientSession W).
Variables (w w1 w2 : W) (query : string) (catalog : ListToolsResult).
Variables (r0 : Response) (m : list (string * value)) (tcs : list value).

Hypothesis Hsession : session self = Some s.
Hypothesis Hlist : list_tools s w = (w1, Ok catalog).
Hypothesis Hpost :
  post (http_client self) completions (initial_request query catalog) w1 = (w2, Ok r0).
Hypothesis Hmessage : choice_message r0 = Some m.
Hypothesis Herror : error_field r0 = None.
Hypothesis Hcalls : lookup "tool_calls" m = Some (VList tcs).

(** the loop runs through the processed tool calls, whether the query
    then returns its output or is given up *)
Lemma processed_run :
  exists ss,
    map step_call ss = processed tcs
    /\ Forall (step_ok itp) ss
    /\ calls (fst (process_query itp self query (initial_state w)))
       = ListTools (Ok catalog)
         :: Post completions (initial_request query catalog) (Ok r0)
         :: trace_events itp (catalog_entries catalog) [user_message query] ss
    /\ messages (fst (process_query itp self query (initial_state w)))
       = user_message query :: flat_map (step_messages itp) ss.
Proof.
  destruct (choice_message_inv _ Hmessage) as (Hs & body & choice & rest & Hj & Hc & Hm).
  unfold error_field in Herror. rewrite Hj in Herror.
  rewrite (@process_query_start W itp self s w w1 w2 query catalog Hsession Hlist r0 Hpost).
  rewrite (@process_response_valid W itp self s _ r0 body _ _ Hs Hj Herror Hc eq_refl).
  rewrite (@answer_from_message W itp self s _ body choice m rest _ Hc Hm).
  set (st0 := {| world := world (after_initial w2 query catalog (Ok r0));
                 calls := calls (after_initial w2 query catalog (Ok r0));
                 messages := messages (after_initial w2 query catalog (Ok r0));
                 final_text := final_text (after_initial w2 query catalog (Ok r0))
                               ++ initial_lines m |}).
  destruct (processed_split tcs) as (rest' & Htcs & Hwf & Hrest).
  destruct (loop_run itp self s (catalog_entries catalog) (processed tcs) Hwf st0)
    as (st1 & ss & Hmap & Hok & Hloop & Hc' & Hm' & _).
  exists ss. split; [exact Hmap|]. split; [exact Hok|].
  assert (Hrun : exists o,
             for_each tcs (handle_tool_call itp self s (catalog_entries catalog)) st0
             = (st1, o)).
  { rewrite Htcs.
    rewrite (@for_each_app _ _ (processed tcs) rest' _ st0 st1 Hloop).
    destruct rest' as [|bad after].
    - now exists (Ok tt).
    - destruct (handle_malformed itp self s (catalog_entries catalog) bad Hrest)
        as [e He].
      exists (Raise e). simpl. unfold bind. now rewrite He. }
  destruct Hrun as [o Hrun].
  assert (Hst : exists out,
             ((has_tool_calls <- lift (py_in "tool_calls" (VDict m)) ;;
               (if has_tool_calls
                then (tool_calls <- lift (getitem (VDict m) "tool_calls") ;;
                      l <- lift (py_iter tool_calls) ;;
                      for_each l (handle_tool_call itp self s (catalog_entries catalog)))
                else ret tt)) ;;
              lines <- get_final_text ;;
              lift (str_join newline (filter truthy lines))) st0
             = (st1, out)).
  { unfold bind at 1. unfold bind at 1. unfold lift at 1. simpl py_in.
    rewrite Hcalls. unfold bind at 1. unfold lift at 1. simpl getitem. rewrite Hcalls.
    unfold bind at 1. unfold lift at 1. simpl py_iter. cbv iota beta.
    rewrite Hrun. destruct o as [[]|e].
    - unfold bind, get_final_text, lift. eexists; reflexivity.
    - eexists; reflexivity. }
  destruct Hst as [out Hst]. rewrite Hst, fst_report.
  rewrite Hc', Hm'. split; reflexivity.
Qed.

End Processed.

Lemma coherent_run {W : Type} (itp : Interp) (self : MCPClient W)
    (query : string) (w : W) :
  coherent (fst (process_query itp self query (initial_state w))).
Proof.
  unfold process_query.
  destruct (session self) as [s|].
  - unfold bind, set_messages. cbv beta iota.
    assert (K : keeps (@coherent W)
                  (try_except (process_query_try itp self s)
                     (fun e => ret ("Error processing query: " +++ exn_str itp e)))).
    { apply keeps_try_except; [apply keeps_process_query_try|].
      intros e. apply keeps_ret. }
    match goal with
    | |- coherent (fst (?c ?st)) => destruct (c st) as [st' o] eqn:E
    end.
    apply (K _ _ _ E). split; [apply linked_user | intros ? ? ? []].
  - split; [apply linked_nil | intros ? ? ? []].
Qed.

(** C8.  After any query, every message of the history with role
    [tool] comes right after an assistant message one of whose
    [tool_calls] has the [id] that the tool message carries as
    [tool_call_id], and the same holds of the history sent with every
    request to the Model Endpoint during the query.  Every tool call that
    is processed has its pair of messages: when the assistant message of
    the initial response carries the list [tcs] of tool calls, the history
    after the query is the user message followed, for each processed tool
    call in order, by the assistant message
    [{role: assistant, content: None, tool_calls: [tool_call]}] and the
    tool message [{role: tool, tool_call_id: id, content: result}], where
    [id] is the [id] of that tool call and [result] is its result. *)
Theorem tool_messages_are_linked {W : Type} (itp : Interp) (self : MCPClient W)
    (query : string) (w : W) :
  let st' := fst (process_query itp self query (initial_state w)) in
  linked (messages st')
  /\ (forall url p o, In (Post url p o) (calls st') -> linked (sent_messages p))
  /\ (forall s w1 w2 catalog r0 m tcs,
        session self = Some s ->
        list_tools s w = (w1, Ok catalog) ->
        post (http_client self) completions (initial_request query catalog) w1
        = (w2, Ok r0) ->
        choice_message r0 = Some m ->
        error_field r0 = None ->
        lookup "tool_calls" m = Some (VList tcs) ->
        exists ids results,
          map (fun tc => getitem tc "id") (processed tcs) = map Ok ids
          /\ Forall2 (result_of_call itp (calls st')) (processed tcs) results
          /\ messages st'
             = VDict [("role", VStr "user"); ("content", VStr query)]
               :: flat_map
                    (fun c =>
                       [VDict [("role", VStr "assistant"); ("content", VNone);
                               ("tool_calls", VList [fst (fst c)])];
                        VDict [("role", VStr "tool"); ("tool_call_id", snd (fst c));
                               ("content", snd c)]])
                    (combine (combine (processed tcs) ids) results)).
Proof.
  cbv zeta. split; [apply coherent_run|]. split; [apply coherent_run|].
  intros s w1 w2 catalog r0 m tcs Hsession Hlist Hpost Hmessage Herror Hcalls.
  destruct (@processed_run W itp self s w w1 w2 query catalog r0 m tcs
              Hsession Hlist Hpost Hmessage Herror Hcalls)
    as (ss & Hmap & Hok & Hc & Hm).
  exists (map (fun x => call_id (step_call x)) ss), (map (step_result itp) ss).
  rewrite <- Hmap, Hm. clear Hm Hmap. split; [|split].
  - rewrite !map_map. apply map_ext_in. intros x Hx.
    apply well_formed_id. rewrite Forall_forall in Hok. exact (proj1 (Hok x Hx)).
  - assert (Hlog : forall x p o, In x ss -> step_invocation x = Invoked p o ->
                     In (CallTool (call_name (step_call x)) p o)
                        (calls (fst (process_query itp self query (initial_state w))))).
    { intros x p o Hx Hinv. rewrite Hc. right. right.
      now apply in_trace_invoked. }
    clear Hc. induction Hok as [|x ss Hx Hok IH]; [constructor|].
    simpl. constructor.
    + apply step_result_of_call; [exact Hx|]. intros p o. apply Hlog. now left.
    + apply IH. intros y p o Hy. apply Hlog. now right.
  - unfold user_message. f_equal. clear Hok Hc.
    induction ss as [|x ss IH]; [reflexivity|]. simpl. now rewrite IH.
Qed.

(** C9.  [process_query] always returns a string: no exception leaves
    it.  Without a Tool Session it returns
    [ERROR: Not connected to server] at once, making no call; with one,
    an exception raised anywhere in the [try] block is returned as
    [Error processing query: ] followed by its text. *)
Theorem process_query_never_raises {W : Type} (itp : Interp) (self : MCPClient W)
    (query : string) (st : state W) :
  (exists out, snd (process_query itp self query st) = Ok out)
  /\ (session self = None ->
      process_query itp self query st = (st, Ok "ERROR: Not connected to server"))
  /\ (forall s st1 e,
        session self = Some s ->
        process_query_try itp self s (seeded query st) = (st1, Raise e) ->
        process_query itp self query st
        = (st1, Ok ("Error processing query: " +++ exn_str itp e))).
Proof.
  unfold process_query. split; [|split].
  - destruct (session self) as [s|]; [|now eexists].
    unfold bind, set_messages, try_except, ret.
    fold (seeded query st).
    destruct (process_query_try itp self s (seeded query st)) as [st1 [a|e]];
      now eexists.
  - now intros ->.
  - intros s st1 e -> Hrun.
    unfold bind, set_messages, try_except, ret. fold (seeded query st).
    now rewrite Hrun.
Qed.

(** ** The properties on the recorded exchanges *)

Lemma loads_x_1 :
  Cpython.loads ("{" +++ dq +++ "x" +++ dq +++ ":1}") = Ok (VDict [("x", VInt 1)]).
Proof.
  reflexivity.
Qed.

Lemma plain_answer_is_returned_witness :
  snd (run client (answering plain_answer [] []) "hello") = Ok "hi".
Proof.
  exact (proj1 (@plain_answer_is_returned Script cpython client the_session
                  (answering plain_answer [] []) (answering plain_answer [] [])
                  (answered (answering plain_answer [] [])) "hello" the_tools
                  plain_answer eq_refl eq_refl eq_refl
                  (message_of plain_answer) "hi"
                  eq_refl eq_refl eq_refl (or_introl eq_refl))).
Defined.

(** A response with status 200, a non-empty [choices] list and an
    assistant message with content [hi] and no [tool_calls], whose body
    also has a top-level [error] field: the query returns the report of
    the error, not the content. *)
Lemma error_beside_choices_is_reported :
  status_code answer_with_error = 200%Z
  /\ choice_message answer_with_error
     = Some [("role", VStr "assistant"); ("content", VStr "hi")]
  /\ snd (run client (answering answer_with_error [] []) "hello")
     = Ok "Error from OpenRouter: quota exceeded"
  /\ snd (run client (answering answer_with_error [] []) "hello") <> Ok "hi".
Proof.
  repeat split; try reflexivity. vm_compute. discriminate.
Qed.

Lemma tool_calls_in_order_witness :
  tool_invocations (calls (fst (run client bad_arguments_script "hello")))
  = [(VStr "add", VDict [("x", VInt 1)])]
  /\ List.length (followups (calls (fst (run client bad_arguments_script "hello")))) = 2
  /\ map (fun po => answered_id (fst po))
       (followups (calls (fst (run client bad_arguments_script "hello"))))
     = [Some (VStr "call_1"); Some (VStr "call_2")].
Proof.
  destruct (@tool_calls_in_order Script cpython client the_session
              bad_arguments_script bad_arguments_script
              (answered bad_arguments_script) "hello" the_tools bad_arguments
              (message_of bad_arguments) (tool_calls_of bad_arguments)
              eq_refl eq_refl eq_refl eq_refl eq_refl eq_refl eq_refl)
    as (Hinv & _ & _ & Hlen & Hids).
  unfold run. rewrite Hinv, Hlen, Hids. repeat split.
Defined.

(** An assistant message carrying one well-formed tool-call request
    whose arguments are not JSON: no tool invocation is made. *)
Lemma undecodable_call_is_not_invoked :
  choice_message one_bad_call = Some (message_of one_bad_call)
  /\ lookup "tool_calls" (message_of one_bad_call)
     = Some (VList (tool_calls_of one_bad_call))
  /\ List.length (tool_calls_of one_bad_call) = 1
  /\ forallb well_formed (tool_calls_of one_bad_call) = true
  /\ map call_args (tool_calls_of one_bad_call) = [VStr "{x: 1}"]
  /\ tool_invocations (calls (fst (run client one_bad_call_script "hello"))) = []
  /\ List.length (tool_invocations (calls (fst (run client one_bad_call_script "hello"))))
     <> List.length (tool_calls_of one_bad_call).
Proof.
  repeat split; try reflexivity. vm_compute. discriminate.
Qed.

Lemma tool_failure_is_contained_witness :
  exists out,
    snd (run client three_calls_script "hello") = Ok out
    /\ appears_in "[Tool lookup result: Error executing tool lookup: Unknown tool: lookup]" out
    /\ appears_in "[Tool add result: [TextContent(type='text', text='3', annotations=None)]]" out
    /\ tool_invocations (calls (fst (run client three_calls_script "hello")))
       = [(VStr "add", VDict [("x", VInt 1)]);
          (VStr "lookup", VDict [("key", VStr "a")]);
          (VStr "add", VDict [("x", VInt 2)])].
Proof.
  destruct (@tool_failure_is_contained Script cpython client the_session
              three_calls_script three_calls_script
              (answered three_calls_script) "hello" the_tools three_calls
              (message_of three_calls) (tool_calls_of three_calls)
              eq_refl eq_refl eq_refl eq_refl eq_refl eq_refl eq_refl eq_refl eq_refl)
    as (out & Hout & Hinv & Hfail & Hall).
  exists out. split; [exact Hout|]. split; [|split].
  - apply (Hfail (VStr "lookup") (VDict [("key", VStr "a")])
             (Raised "Unknown tool: lookup")).
    vm_compute. do 4 right. left. reflexivity.
  - apply (Hall (VStr "add") (VDict [("x", VInt 2)]) (text_content "3")).
    vm_compute. do 6 right. left. reflexivity.
  - unfold run. rewrite Hinv. reflexivity.
Defined.

Lemma failed_status_is_reported_witness :
  snd (run client (answering upstream_failure [] []) "hello")
  = Ok "Error from OpenRouter API: upstream failure"
  /\ messages (fst (run client (answering upstream_failure [] []) "hello"))
     = [user_message "hello"].
Proof.
  destruct (@failed_status_is_reported Script cpython client the_session
              (answering upstream_failure [] []) (answering upstream_failure [] [])
              (answered (answering upstream_failure [] [])) "hello" the_tools
              upstream_failure eq_refl eq_refl eq_refl
              ltac:(discriminate))
    as (Hout & _ & _ & Hhistory).
  split; [exact Hout | exact Hhistory].
Defined.

(** A response with status 500: the string returned does not contain
    the status, and is the same for another failing status with the same
    body. *)
Lemma status_is_not_in_the_report :
  status_code upstream_failure = 500%Z
  /\ snd (run client (answering upstream_failure [] []) "hello")
     = Ok "Error from OpenRouter API: upstream failure"
  /\ ~ appears_in (Cpython.int_repr (status_code upstream_failure))
         "Error from OpenRouter API: upstream failure"
  /\ snd (run client (answering (reply 503 "upstream failure") [] []) "hello")
     = snd (run client (answering upstream_failure [] []) "hello").
Proof.
  repeat split; try reflexivity.
  intros H. apply appears_in_is_substring in H. vm_compute in H. discriminate.
Qed.

Lemma malformed_response_is_reported_witness :
  snd (run client (answering error_body [] []) "hello")
  = Ok "Error from OpenRouter: {'message': 'No auth', 'code': 401}"
  /\ tool_invocations (calls (fst (run client (answering error_body [] []) "hello"))) = []
  /\ snd (run client (answering no_choices [] []) "hello")
     = Ok "Invalid response received from API".
Proof.
  assert (Hinvalid : snd (run client (answering no_choices [] []) "hello")
                     = Ok "Invalid response received from API").
  { destruct (@malformed_response_is_reported Script cpython client the_session
                (answering no_choices [] []) (answering no_choices [] [])
                (answered (answering no_choices [] [])) "hello" the_tools
                no_choices eq_refl eq_refl eq_refl
                (body_of no_choices) eq_refl eq_refl (or_intror eq_refl))
      as (out & Hout & _ & _ & _ & _ & _ & _ & Hnone).
    unfold run. rewrite Hout. f_equal. apply Hnone; reflexivity. }
  assert (Hfield : lookup "error" (body_of error_body) <> None)
    by (vm_compute; discriminate).
  destruct (@malformed_response_is_reported Script cpython client the_session
              (answering error_body [] []) (answering error_body [] [])
              (answered (answering error_body [] [])) "hello" the_tools
              error_body eq_refl eq_refl eq_refl
              (body_of error_body) eq_refl eq_refl (or_introl Hfield))
    as (out & Hout & _ & Hnone & _ & _ & Herr & _).
  split; [|split; [exact Hnone | exact Hinvalid]].
  unfold run. rewrite Hout.
  rewrite (Herr (VDict [("message", VStr "No auth"); ("code", VInt 401)]) eq_refl).
  reflexivity.
Defined.

Lemma arguments_are_decoded_witness :
  exists out,
    snd (run client bad_arguments_script "hello") = Ok out
    /\ In (VStr "add", VDict [("x", VInt 1)])
         (tool_invocations (calls (fst (run client bad_arguments_script "hello"))))
    /\ appears_in "[Tool add result: Error executing tool add: JSONDecodeError]" out
    /\ List.length (messages (fst (run client bad_arguments_script "hello"))) = 5.
Proof.
  destruct (@arguments_are_decoded Script cpython client the_session
              bad_arguments_script bad_arguments_script
              (answered bad_arguments_script) "hello" the_tools bad_arguments
              (message_of bad_arguments) (tool_calls_of bad_arguments)
              eq_refl eq_refl eq_refl eq_refl eq_refl eq_refl eq_refl eq_refl eq_refl)
    as (out & lines & Hout & _ & _ & Hlen & Hcalls).
  exists out. split; [exact Hout|]. split; [|split].
  - destruct (Hcalls (nth 1 (tool_calls_of bad_arguments) VNone)) as (_ & Hdec & _).
    { vm_compute. right. left. reflexivity. }
    exact (Hdec ("{" +++ dq +++ "x" +++ dq +++ ":1}") (VDict [("x", VInt 1)])
             eq_refl eq_refl).
  - destruct (Hcalls (nth 0 (tool_calls_of bad_arguments) VNone)) as (_ & _ & Hbad).
    { vm_compute. left. reflexivity. }
    exact (proj2 (Hbad "{x: 1}" (Raised "JSONDecodeError") eq_refl eq_refl)).
  - exact Hlen.
Defined.


Lemma tool_messages_are_linked_witness :
  linked (messages (fst (run client three_calls_script "hello")))
  /\ messages (fst (run client three_calls_script "hello"))
     = [VDict [("role", VStr "user"); ("content", VStr "hello")];
        VDict [("role", VStr "assistant"); ("content", VNone);
               ("tool_calls", VList [nth 0 (tool_calls_of three_calls) VNone])];
        VDict [("role", VStr "tool"); ("tool_call_id", VStr "call_1");
               ("content",
                VList [VObject "TextContent(type='text', text='2', annotations=None)"])];
        VDict [("role", VStr "assistant"); ("content", VNone);
               ("tool_calls", VList [nth 1 (tool_calls_of three_calls) VNone])];
        VDict [("role", VStr "tool"); ("tool_call_id", VStr "call_2");
               ("content", VStr "Error executing tool lookup: Unknown tool: lookup")];
        VDict [("role", VStr "assistant"); ("content", VNone);
               ("tool_calls", VList [nth 2 (tool_calls_of three_calls) VNone])];
        VDict [("role", VStr "tool"); ("tool_call_id", VStr "call_3");
               ("content",
                VList [VObject "TextContent(type='text', text='3', annotations=None)"])]].
Proof.
  pose proof (tool_messages_are_linked cpython client "hello" three_calls_script) as H.
  cbv zeta in H. destruct H as (Hlinked & _ & Hbatch).
  split; [exact Hlinked|].
  destruct (Hbatch the_session three_calls_script (answered three_calls_script)
              the_tools three_calls (message_of three_calls) (tool_calls_of three_calls)
              eq_refl eq_refl eq_refl eq_refl eq_refl eq_refl)
    as (ids & results & Hids & Hres & Hm).
  assert (Hp : processed (tool_calls_of three_calls)
               = [nth 0 (tool_calls_of three_calls) VNone;
                  nth 1 (tool_calls_of three_calls) VNone;
                  nth 2 (tool_calls_of three_calls) VNone]) by (vm_compute; reflexivity).
  rewrite Hp in Hids, Hres, Hm.
  vm_compute in Hids.
  destruct ids as [|i1 [|i2 [|i3 [|]]]]; try discriminate Hids.
  injection Hids as <- <- <-.
  pose proof (Forall2_length Hres) as Hlen. cbn [List.length] in Hlen.
  destruct results as [|r1 [|r2 [|r3 [|]]]]; try discriminate Hlen. clear Hlen.
  apply Forall2_cons_iff in Hres as [H1 Hres].
  apply Forall2_cons_iff in Hres as [H2 Hres].
  apply Forall2_cons_iff in Hres as [H3 _].
  vm_compute in H1. vm_compute in H2. vm_compute in H3.
  destruct H1 as (o1 & HIn1 & ->). destruct H2 as (o2 & HIn2 & ->).
  destruct H3 as (o3 & HIn3 & ->).
  repeat (destruct HIn1 as [HIn1|HIn1]; [try discriminate HIn1|]);
    try contradiction.
  repeat (destruct HIn2 as [HIn2|HIn2]; [try discriminate HIn2|]);
    try contradiction.
  repeat (destruct HIn3 as [HIn3|HIn3]; [try discriminate HIn3|]);
    try contradiction.
  injection HIn1 as <-. injection HIn2 as <-. injection HIn3 as <-.
  unfold run.
  cbn [combine flat_map app fst snd] in Hm.
  exact Hm.
Defined.

(** the identifiers of a recorded exchange of two tool calls *)
Lemma two_calls_replayed :
  map (fun msg => (getitem msg "role", getitem msg "tool_call_id"))
    (tl (messages (fst (run client bad_arguments_script "hello"))))
  = [(Ok (VStr "assistant"), Raise (KeyError (VStr "tool_call_id")));
     (Ok (VStr "tool"), Ok (VStr "call_1"));
     (Ok (VStr "assistant"), Raise (KeyError (VStr "tool_call_id")));
     (Ok (VStr "tool"), Ok (VStr "call_2"))]
  /\ map call_id (tool_calls_of bad_arguments) = [VStr "call_1"; VStr "call_2"].
Proof.
  split; reflexivity.
Qed.

Lemma process_query_never_raises_witness :
  process_query cpython unconnected "hello" (initial_state three_calls_script)
  = (initial_state three_calls_script, Ok "ERROR: Not connected to server").
Proof.
  exact (proj1 (proj2 (process_query_never_raises cpython unconnected "hello"
                         (initial_state three_calls_script))) eq_refl).
Defined.

Lemma malformed_followup_is_skipped_witness :
  followup_lines cpython (Ok (reply 200 "{}")) = []
  /\ List.length (followups (calls (fst (run client three_calls_script "hello")))) = 3
  /\ List.length (final_text (fst (run client three_calls_script "hello"))) = 5.
Proof.
  destruct (@malformed_followup_is_skipped Script cpython client the_session
              three_calls_script three_calls_script
              (answered three_calls_script) "hello" the_tools three_calls
              (message_of three_calls) (tool_calls_of three_calls)
              eq_refl eq_refl eq_refl eq_refl eq_refl eq_refl eq_refl)
    as (results & _ & Hlen & _ & _ & _ & Hskip).
  split; [|split; [exact Hlen | reflexivity]].
  apply (Hskip
           (fst (nth 2 (followups (calls (fst (run client three_calls_script "hello"))))
                   (VNone, Raise (Raised EmptyString))))
           (reply 200 "{}") []).
  - vm_compute. do 2 right. left. reflexivity.
  - reflexivity.
  - reflexivity.
  - reflexivity.
Defined.

(** * Further properties of [process_query] *)

(** ** Failures before the first response *)

(** X1.  When listing the tools of the Tool Session raises, the query
    returns [Error processing query: ] followed by the text of the
    exception; no request is sent to the Model Endpoint and no tool is
    invoked. *)
Theorem catalog_failure_is_reported {W : Type} (itp : Interp) (self : MCPClient W)
    (s : ClientSession W) (query : string) (w w1 : W) (e : exn) :
  session self = Some s ->
  list_tools s w = (w1, Raise e) ->
  let st' := fst (process_query itp self query (initial_state w)) in
  snd (process_query itp self query (initial_state w))
  = Ok ("Error processing query: " +++ exn_str itp e)
  /\ calls st' = [ListTools (Raise e)]
  /\ posts (calls st') = []
  /\ tool_invocations (calls st') = [].
Proof.
  intros Hs Hl. cbv zeta. unfold process_query. rewrite Hs.
  unfold bind, set_messages, try_except, process_query_try, bind, session_list_tools.
  simpl. rewrite Hl. now repeat split.
Qed.

(** X2.  When the initial request to the Model Endpoint raises, or is
    answered with status 200 and a body that cannot be decoded, the query
    returns [Error processing query: ] followed by the text of the
    exception; no tool is invoked and no follow-up request is made. *)
Theorem transport_failure_is_reported {W : Type} (itp : Interp) (self : MCPClient W)
    (s : ClientSession W) (query : string) (w w1 w2 : W) (catalog : ListToolsResult)
    (o : outcome Response) (e : exn) :
  session self = Some s ->
  list_tools s w = (w1, Ok catalog) ->
  post (http_client self) completions (initial_request query catalog) w1 = (w2, o) ->
  o = Raise e \/ (exists r, o = Ok r /\ status_code r = 200%Z /\ json r = Raise e) ->
  let st' := fst (process_query itp self query (initial_state w)) in
  snd (process_query itp self query (initial_state w))
  = Ok ("Error processing query: " +++ exn_str itp e)
  /\ tool_invocations (calls st') = []
  /\ followups (calls st') = []
  /\ messages st' = [user_message query].
Proof.
  intros Hs Hl Hp Ho. cbv zeta.
  destruct Ho as [->|(r & -> & Hstatus & Hjson)].
  - unfold process_query. rewrite Hs.
    unfold bind, set_messages, try_except, process_query_try, bind,
      session_list_tools, get_messages, http_post.
    simpl. rewrite Hl. simpl.
    fold (catalog_entries catalog). fold (initial_request query catalog).
    rewrite Hp. now repeat split.
  - rewrite (@process_query_start W itp self s w w1 w2 query catalog Hs Hl r Hp).
    unfold process_response, bind, lift. rewrite Hstatus, Hjson. now repeat split.
Qed.

(** ** Queries that are given up after the assistant message *)

Lemma str_join_raises (sep : string) (l : list value) :
  forallb is_str l = false ->
  exists i v,
    nth_error l i = Some v
    /\ is_str v = false
    /\ forallb is_str (firstn i l) = true
    /\ str_join sep l = Raise (JoinItem i v).
Proof.
  unfold str_join.
  assert (H : forall n, forallb is_str l = false ->
              exists i v, nth_error l i = Some v /\ is_str v = false
                          /\ forallb is_str (firstn i l) = true
                          /\ join_items n l = Raise (JoinItem (n + i) v)).
  { induction l as [|x l IH]; intros n Hl; [discriminate|].
    simpl in Hl. destruct (is_str x) eqn:Hx.
    - destruct (IH (S n) Hl) as (i & v & Hn & Hv & Hpre & Hj).
      exists (S i), v. simpl. rewrite Hx, Hpre. repeat split; try assumption.
      destruct x; try discriminate. rewrite Hj. simpl. f_equal. f_equal. lia.
    - exists 0, x. rewrite Nat.add_0_r. repeat split; try assumption.
      destruct x; try reflexivity. discriminate. }
  intros Hl. destruct (H 0 Hl) as (i & v & Hn & Hv & Hpre & Hj).
  exists i, v. rewrite Hj. now repeat split.
Qed.

Section Aborts.

Context {W : Type} (itp : Interp) (self : MCPClient W) (s : ClientSession W).
Variables (w w1 w2 : W) (query : string) (catalog : ListToolsResult).
Variables (r0 : Response) (m : list (string * value)).

Hypothesis Hsession : session self = Some s.
Hypothesis Hlist : list_tools s w = (w1, Ok catalog).
Hypothesis Hpost :
  post (http_client self) completions (initial_request query catalog) w1 = (w2, Ok r0).
Hypothesis Hmessage : choice_message r0 = Some m.
Hypothesis Herror : error_field r0 = None.

Lemma reaches_tool_calls :
  process_query itp self query (initial_state w)
  = report itp
      (((has_tool_calls <- lift (py_in "tool_calls" (VDict m)) ;;
         (if has_tool_calls
          then (tool_calls <- lift (getitem (VDict m) "tool_calls") ;;
                l <- lift (py_iter tool_calls) ;;
                for_each l (handle_tool_call itp self s (catalog_entries catalog)))
          else ret tt)) ;;
        lines <- get_final_text ;;
        lift (str_join newline (filter truthy lines)))
         {| world := w2;
            calls := [ListTools (Ok catalog);
                      Post completions (initial_request query catalog) (Ok r0)];
            messages := [user_message query];
            final_text := initial_lines m |}).
Proof.
  destruct (choice_message_inv _ Hmessage) as (Hs & body & choice & rest & Hj & Hc & Hm).
  unfold error_field in Herror. rewrite Hj in Herror.
  rewrite (@process_query_start W itp self s w w1 w2 query catalog Hsession Hlist r0 Hpost).
  rewrite (@process_response_valid W itp self s _ r0 body _ _ Hs Hj Herror Hc eq_refl).
  rewrite (@answer_from_message W itp self s _ body choice m rest _ Hc Hm).
  reflexivity.
Qed.

(** X3.  A tool-call request that lacks [id], [function],
    [function.name] or [function.arguments] makes the whole query fail:
    the requests before it in the list are processed as usual (their
    invocations and follow-ups are made), the requests after it are not
    looked at, and the query returns [Error processing query: ...]
    instead of the output accumulated so far. *)
Theorem malformed_tool_call_aborts (before after : list value) (bad : value) :
  lookup "tool_calls" m = Some (VList (before ++ bad :: after)) ->
  forallb well_formed before = true ->
  well_formed bad = false ->
  let st' := fst (process_query itp self query (initial_state w)) in
  exists e results,
    snd (process_query itp self query (initial_state w))
    = Ok ("Error processing query: " +++ exn_str itp e)
    /\ tool_invocations (calls st') = expected_invocations itp before
    /\ List.length (followups (calls st')) = List.length before
    /\ List.length results = List.length before
    /\ messages st' = history query (combine before results).
Proof.
  intros Hcalls Hwf Hbad. cbv zeta.
  set (st0 := {| world := w2;
                 calls := [ListTools (Ok catalog);
                           Post completions (initial_request query catalog) (Ok r0)];
                 messages := [user_message query];
                 final_text := initial_lines m |}).
  destruct (loop_run itp self s (catalog_entries catalog) before Hwf st0)
    as (st1 & ss & Hmap & Hok & Hloop & Hc & Hm & _).
  destruct (handle_malformed itp self s (catalog_entries catalog) bad Hbad) as [e He].
  assert (Hrun : for_each (before ++ bad :: after)
                   (handle_tool_call itp self s (catalog_entries catalog)) st0
                 = (st1, Raise e)).
  { rewrite (@for_each_app _ _ before (bad :: after) _ st0 st1 Hloop).
    simpl. unfold bind. now rewrite He. }
  assert (Hpq : process_query itp self query (initial_state w)
                = (st1, Ok ("Error processing query: " +++ exn_str itp e))).
  { rewrite reaches_tool_calls. fold st0.
    unfold bind at 1. unfold bind at 1. unfold lift at 1. simpl py_in.
    rewrite Hcalls. unfold bind at 1. unfold lift at 1. simpl getitem. rewrite Hcalls.
    unfold bind at 1. unfold lift at 1. simpl py_iter. cbv iota beta.
    now rewrite Hrun. }
  rewrite Hpq. cbn [fst snd].
  unfold st0 in Hc, Hm. cbn [calls messages app] in Hc, Hm.
  destruct (batch_calls st1 Hmap Hok Hc) as [Hinv Hfu].
  exists e, (map (step_result itp) ss).
  split; [reflexivity|]. split; [exact Hinv|].
  split.
  { now rewrite Hfu, <- (length_map snd), posts_trace, length_map, <- Hmap, length_map. }
  split; [now rewrite length_map, <- Hmap, length_map|].
  now rewrite Hm, history_steps, Hmap.
Qed.

(** X4.  When the assistant message has a [tool_calls] key whose value
    cannot be iterated over ([null], a number, a boolean), the query
    returns [Error processing query: ...] even if the message has a
    content; no tool is invoked and no follow-up request is made. *)
Theorem uniterable_tool_calls_abort (v : value) (e : exn) :
  lookup "tool_calls" m = Some v ->
  py_iter v = Raise e ->
  let st' := fst (process_query itp self query (initial_state w)) in
  snd (process_query itp self query (initial_state w))
  = Ok ("Error processing query: " +++ exn_str itp e)
  /\ tool_invocations (calls st') = []
  /\ followups (calls st') = [].
Proof.
  intros Hcalls Hiter. cbv zeta. rewrite reaches_tool_calls.
  unfold bind, lift. simpl py_in. rewrite Hcalls. simpl getitem. rewrite Hcalls.
  rewrite Hiter. now repeat split.
Qed.

(** X5.  When some content to be returned is not text (the content of
    the assistant message or of a reply to a follow-up is a list or
    another non-empty value that is not a string), joining the output
    fails: the query returns [Error processing query: ...] naming the first
    such item, although every tool call of the batch was invoked and
    followed up. *)
Theorem non_text_content_loses_output (tcs : list value) :
  lookup "tool_calls" m = Some (VList tcs) ->
  forallb well_formed tcs = true ->
  forallb is_str (final_text (fst (process_query itp self query (initial_state w))))
  = false ->
  let st' := fst (process_query itp self query (initial_state w)) in
  exists i v,
    nth_error (final_text st') i = Some v
    /\ is_str v = false
    /\ forallb is_str (firstn i (final_text st')) = true
    /\ snd (process_query itp self query (initial_state w))
       = Ok ("Error processing query: " +++ exn_str itp (JoinItem i v))
    /\ tool_invocations (calls st') = expected_invocations itp tcs
    /\ List.length (followups (calls st')) = List.length tcs.
Proof.
  intros Hcalls Hwf Hnot. cbv zeta.
  destruct (@batch_run W itp self s w w1 w2 query catalog r0 m tcs
              Hsession Hlist Hpost Hmessage Herror Hcalls Hwf)
    as (st' & ss & Hmap & Hok & Hrun & Hc & _ & _).
  rewrite Hrun, fst_report in Hnot |- *.
  destruct (str_join_raises newline _ Hnot) as (i & v & Hn & Hv & Hpre & Hj).
  destruct (batch_calls st' Hmap Hok Hc) as [Hinv Hfu].
  exists i, v. rewrite Hj. cbn [report snd].
  repeat (split; [assumption || reflexivity|]).
  now rewrite Hfu, <- (length_map snd), posts_trace, length_map, <- Hmap, length_map.
Qed.

End Aborts.

(** ** Nothing empty is ever appended to the output *)

Section Fragments.

Context {W : Type} (itp : Interp) (self : MCPClient W) (s : ClientSession W).

Lemma keeps_same_text {A} (c : M W A) :
  (forall st st' o, c st = (st', o) -> final_text st' = final_text st) ->
  keeps (@no_empty_fragment W) c.
Proof.
  intros Hc st st' o Hrun H. unfold no_empty_fragment. now rewrite (Hc _ _ _ Hrun).
Qed.

Lemma fragment_list_tools : keeps (@no_empty_fragment W) (session_list_tools s).
Proof.
  apply keeps_same_text. intros st st' o. unfold session_list_tools.
  destruct (list_tools s (world st)). now intros [= <- _].
Qed.

Lemma fragment_call_tool (n a : value) :
  keeps (@no_empty_fragment W) (session_call_tool s n a).
Proof.
  apply keeps_same_text. intros st st' o. unfold session_call_tool.
  destruct (call_tool s n a (world st)). now intros [= <- _].
Qed.

Lemma fragment_post (url : string) (p : value) :
  keeps (@no_empty_fragment W) (http_post self url p).
Proof.
  apply keeps_same_text. intros st st' o. unfold http_post.
  destruct (post (http_client self) url p (world st)). now intros [= <- _].
Qed.

Lemma fragment_append (v : value) :
  truthy v = true -> keeps (@no_empty_fragment W) (append_text v).
Proof.
  intros Hv st st' o [= <- _] H. unfold no_empty_fragment in *. simpl.
  rewrite forallb_app, H. simpl. now rewrite Hv.
Qed.

Lemma fragment_follow_up (avail : list value) :
  keeps (@no_empty_fragment W) (follow_up itp self avail).
Proof.
  unfold follow_up. apply keeps_try_except.
  - apply keeps_bind; [apply keeps_same_text; now intros ? ? ? [= <- _]|]. intros msgs.
    apply keeps_bind; [apply fragment_post|]. intros r.
    apply keeps_bind_lift. intros [c|] Hc; [|apply keeps_ret].
    apply fragment_append. exact (followup_content_truthy _ Hc).
  - intros e. now apply fragment_append.
Qed.

Lemma fragment_handle_tool_call (avail : list value) (tc : value) :
  keeps (@no_empty_fragment W) (handle_tool_call itp self s avail tc).
Proof.
  unfold handle_tool_call.
  apply keeps_bind; [apply keeps_lift|]. intros n.
  apply keeps_bind; [apply keeps_lift|]. intros a.
  apply keeps_bind; [apply keeps_lift|]. intros i.
  apply keeps_bind.
  { unfold invoke_tool. apply keeps_try_except.
    - apply keeps_bind; [apply keeps_lift|]. intros p.
      apply keeps_bind; [apply fragment_call_tool|]. intros r.
      apply keeps_bind; [apply keeps_lift|]. intros _. apply keeps_ret.
    - intros e. apply keeps_ret. }
  intros r.
  apply keeps_bind; [now apply fragment_append|]. intros _.
  apply keeps_bind; [apply keeps_same_text; now intros ? ? ? [= <- _]|]. intros _.
  apply fragment_follow_up.
Qed.

Lemma fragment_answer_from (avail : list value) (d : value) :
  keeps (@no_empty_fragment W) (answer_from itp self s avail d).
Proof.
  unfold answer_from.
  apply keeps_bind; [apply keeps_lift|]. intros choices.
  apply keeps_bind; [apply keeps_lift|]. intros choice.
  apply keeps_bind; [apply keeps_lift|]. intros am.
  apply keeps_bind_lift. intros c Hc.
  apply keeps_bind.
  { destruct (truthy c) eqn:T; [|apply keeps_ret].
    apply keeps_bind_lift. intros c' Hc'.
    rewrite (dict_get_truthy _ _ Hc T) in Hc'. injection Hc' as <-.
    now apply fragment_append. }
  intros _. apply keeps_bind; [apply keeps_lift|]. intros b.
  apply keeps_bind.
  { apply keeps_if; [|apply keeps_ret].
    apply keeps_bind; [apply keeps_lift|]. intros ?.
    apply keeps_bind; [apply keeps_lift|]. intros l.
    apply keeps_for_each. intros tc. apply fragment_handle_tool_call. }
  intros _.
  apply keeps_bind; [apply keeps_same_text; now intros ? ? ? [= <- _]|]. intros ?.
  apply keeps_lift.
Qed.

Lemma fragment_process_query_try :
  keeps (@no_empty_fragment W) (process_query_try itp self s).
Proof.
  unfold process_query_try.
  apply keeps_bind; [apply fragment_list_tools|]. intros t.
  apply keeps_bind; [apply keeps_same_text; now intros ? ? ? [= <- _]|]. intros msgs.
  apply keeps_bind; [apply fragment_post|]. intros r.
  unfold process_response.
  apply keeps_if; [apply keeps_ret|].
  apply keeps_bind; [apply keeps_lift|]. intros d.
  apply keeps_bind; [apply keeps_lift|]. intros b.
  apply keeps_if.
  { apply keeps_bind; [apply keeps_lift|]. intros ?. apply keeps_ret. }
  apply keeps_bind; [apply keeps_lift|]. intros b'.
  apply keeps_bind.
  { apply keeps_if; [apply keeps_ret|].
    apply keeps_bind; [apply keeps_lift|]. intros ?. apply keeps_ret. }
  intros b''. apply keeps_if; [apply keeps_ret | apply fragment_answer_from].
Qed.

End Fragments.

(** X6.  In every run, each value appended to the output is truthy: the
    content of a message is appended only when it is non-empty, and the
    fragments built by the client are never empty.  The filter applied
    before the final join (line 204) therefore removes nothing. *)
Theorem output_fragments_never_empty {W : Type} (itp : Interp) (self : MCPClient W)
    (query : string) (w : W) :
  let st' := fst (process_query itp self query (initial_state w)) in
  forallb truthy (final_text st') = true
  /\ filter truthy (final_text st') = final_text st'.
Proof.
  cbv zeta.
  assert (H : no_empty_fragment (fst (process_query itp self query (initial_state w)))).
  { unfold process_query. destruct (session self) as [s|]; [|reflexivity].
    unfold bind, set_messages. cbv beta iota.
    assert (K : keeps (@no_empty_fragment W)
                  (try_except (process_query_try itp self s)
                     (fun e => ret ("Error processing query: " +++ exn_str itp e)))).
    { apply keeps_try_except; [apply fragment_process_query_try|].
      intros e. apply keeps_ret. }
    match goal with
    | |- no_empty_fragment (fst (?c ?st)) => destruct (c st) as [st' o] eqn:E
    end.
    apply (K _ _ _ E). reflexivity. }
  split; [exact H | now apply filter_all].
Qed.

(** ** What the requests of a query carry *)

Lemma trace_events_shape (itp : Interp) (avail : list value) (ss : list step) (ev : event) :
  forall h,
    In ev (trace_events itp avail h ss) ->
    (exists n a o, ev = CallTool n a o)
    \/ (exists h' o, ev = Post completions (followup_payload h' avail) o).
Proof.
  induction ss as [|x ss IH]; intros h HIn; [destruct HIn|].
  cbn [trace_events] in HIn. apply in_app_or in HIn as [HIn|[HIn|HIn]].
  - left. destruct (step_invocation x) as [e|p o]; simpl in HIn; [destruct HIn|].
    destruct HIn as [<-|[]]. now eexists _, _, _.
  - right. rewrite <- HIn. now eexists _, _.
  - exact (IH _ HIn).
Qed.

Lemma sent_messages_trace (itp : Interp) (avail : list value) (ss : list step) :
  forall h,
    map (fun po => sent_messages (fst po)) (posts (trace_events itp avail h ss))
    = map (fun k => h ++ flat_map (step_messages itp) (firstn (S k) ss))
        (seq 0 (List.length ss)).
Proof.
  induction ss as [|x ss IH]; intros h; [reflexivity|].
  cbn [trace_events]. rewrite posts_app.
  assert (E : posts (invocation_events (call_name (step_call x)) (step_invocation x)) = [])
    by (destruct (step_invocation x); reflexivity).
  rewrite E. cbn [app posts flat_map map fst List.length seq].
  fold (posts (trace_events itp avail (h ++ step_messages itp x) ss)).
  rewrite IH, <- seq_shift, map_map. f_equal.
  all: try (cbn [firstn flat_map]; now rewrite app_nil_r).
  apply map_ext. intros k.
  change (firstn (S (S k)) (x :: ss)) with (x :: firstn (S k) ss).
  cbn [flat_map]. now rewrite <- app_assoc.
Qed.

Section Requests.

Context {W : Type} (itp : Interp) (self : MCPClient W) (s : ClientSession W).
Variables (w w1 w2 : W) (query : string) (catalog : ListToolsResult).
Variables (r0 : Response) (m : list (string * value)) (tcs : list value).

Hypothesis Hsession : session self = Some s.
Hypothesis Hlist : list_tools s w = (w1, Ok catalog).
Hypothesis Hpost :
  post (http_client self) completions (initial_request query catalog) w1 = (w2, Ok r0).
Hypothesis Hmessage : choice_message r0 = Some m.
Hypothesis Herror : error_field r0 = None.
Hypothesis Hcalls : lookup "tool_calls" m = Some (VList tcs).
Hypothesis Hwf : forallb well_formed tcs = true.

(** X7.  Along a batch of well-formed tool calls, the tool catalog is
    fetched once, as the first call of the query, and every request to the
    Model Endpoint, the initial one and each follow-up, goes to
    [/chat/completions] with the same [tools] list, built from that
    catalog. *)
Theorem one_catalog_per_query :
  let st' := fst (process_query itp self query (initial_state w)) in
  calls st' = ListTools (Ok catalog) :: tl (calls st')
  /\ (forall o, ~ In (ListTools o) (tl (calls st')))
  /\ forall url p o,
       In (Post url p o) (calls st') ->
       url = completions
       /\ getitem p "tools" = Ok (VList (catalog_entries catalog)).
Proof.
  destruct (@batch_run W itp self s w w1 w2 query catalog r0 m tcs
              Hsession Hlist Hpost Hmessage Herror Hcalls Hwf)
    as (st' & ss & _ & _ & Hrun & Hc & _ & _).
  cbv zeta. rewrite Hrun, fst_report, Hc. cbn [tl].
  split; [reflexivity|]. split.
  - intros o [HIn|HIn]; [discriminate|].
    apply trace_events_shape in HIn as [(n & a & o' & H)|(h' & o' & H)]; discriminate.
  - intros url p o [HIn|[HIn|HIn]]; [discriminate| |].
    + injection HIn as <- <- _. now split.
    + apply trace_events_shape in HIn as [(n & a & o' & H)|(h' & o' & H)];
        [discriminate|].
      injection H as -> -> _. now split.
Qed.

(** X8.  Along a batch of well-formed tool calls, each request replays
    the whole history so far: the initial request carries the user
    message alone, and the follow-up of the k-th tool call carries the user
    message followed by the call and result messages of the first k tool
    calls, in order.  No reply of the Model Endpoint is ever added to the
    history. *)
Theorem requests_replay_history :
  let st' := fst (process_query itp self query (initial_state w)) in
  exists results,
    List.length results = List.length tcs
    /\ messages st' = history query (combine tcs results)
    /\ map (fun po => sent_messages (fst po)) (posts (calls st'))
       = map (fun k => history query (firstn k (combine tcs results)))
           (seq 0 (S (List.length tcs))).
Proof.
  destruct (@batch_run W itp self s w w1 w2 query catalog r0 m tcs
              Hsession Hlist Hpost Hmessage Herror Hcalls Hwf)
    as (st' & ss & Hmap & _ & Hrun & Hc & Hm & _).
  cbv zeta. rewrite Hrun, fst_report, Hc, Hm.
  exists (map (step_result itp) ss).
  split; [now rewrite length_map, <- Hmap, length_map|].
  split; [now rewrite history_steps, Hmap|].
  cbn [posts flat_map app map fst seq].
  fold (posts (trace_events itp (catalog_entries catalog) [user_message query] ss)).
  f_equal.
  rewrite sent_messages_trace, <- seq_shift, map_map, <- Hmap, length_map.
  apply map_ext. intros k.
  rewrite combine_firstn, !firstn_map. cbn [app].
  apply history_steps.
Qed.

End Requests.

(** * Connecting, chatting and shutting down *)

(** ** Suffixes and surrounding whitespace *)

Lemma ends_with_refl (s : string) : ends_with s s = true.
Proof.
  destruct s; simpl; now rewrite ?Ascii.eqb_refl, ?String.eqb_refl.
Qed.

Lemma ends_with_iff (suffix s : string) :
  ends_with suffix s = true <-> exists stem, s = stem +++ suffix.
Proof.
  split.
  - induction s as [|a s IH]; simpl; intros H.
    + rewrite orb_false_r in H. apply String.eqb_eq in H. now exists EmptyString.
    + apply orb_true_iff in H as [H|H].
      * apply String.eqb_eq in H. now exists EmptyString.
      * destruct (IH H) as [stem ->]. now exists (String a stem).
  - intros [stem ->]. induction stem as [|a stem IH].
    + apply ends_with_refl.
    + simpl. rewrite IH. apply orb_true_r.
Qed.

Lemma lstrip_spaces (ws s : string) :
  all_space ws = true -> lstrip (ws +++ s) = lstrip s.
Proof.
  induction ws as [|a ws IH]; simpl; [reflexivity|].
  intros H. apply andb_true_iff in H as [Ha Hws]. now rewrite Ha, IH.
Qed.

Lemma rstrip_all_space (ws : string) : all_space ws = true -> rstrip ws = EmptyString.
Proof.
  induction ws as [|a ws IH]; simpl; [reflexivity|].
  intros H. apply andb_true_iff in H as [Ha Hws]. now rewrite IH, Ha.
Qed.

Lemma rstrip_spaces (s ws : string) :
  all_space ws = true -> rstrip (s +++ ws) = rstrip s.
Proof.
  intros H. induction s as [|a s IH]; simpl.
  - now apply rstrip_all_space.
  - now rewrite IH.
Qed.

Lemma lstrip_split (s : string) :
  exists ws, all_space ws = true /\ s = ws +++ lstrip s.
Proof.
  induction s as [|a s (ws & Hws & IH)]; simpl.
  - now exists EmptyString.
  - destruct (isspace a) eqn:Ha.
    + exists (String a ws). simpl. rewrite Ha, Hws. split; [reflexivity|]. now rewrite <- IH.
    + now exists EmptyString.
Qed.

Lemma rstrip_split (s : string) :
  exists ws, all_space ws = true /\ s = rstrip s +++ ws.
Proof.
  induction s as [|a s (ws & Hws & IH)]; simpl.
  - now exists EmptyString.
  - destruct (rstrip s) as [|b r] eqn:E.
    + destruct (isspace a) eqn:Ha.
      * exists (String a ws). simpl in *. rewrite Ha, Hws. split; [reflexivity|].
        now rewrite <- IH.
      * exists ws. split; [exact Hws|]. simpl in *. now rewrite <- IH.
    + exists ws. split; [exact Hws|]. simpl in *. now rewrite <- IH.
Qed.

Lemma rstrip_no_space (s : string) : no_space s = true -> rstrip s = s.
Proof.
  induction s as [|a s IH]; simpl; [reflexivity|].
  intros H. apply andb_true_iff in H as [Ha Hs]. rewrite (IH Hs).
  destruct s; [|reflexivity]. apply negb_true_iff in Ha. now rewrite Ha.
Qed.

Lemma lower_char_space (a : ascii) : isspace (lower_char a) = false -> isspace a = false.
Proof.
  destruct a as [[] [] [] [] [] [] [] []]; vm_compute; intros H; congruence.
Qed.

Lemma lower_no_space (s : string) : no_space (lower s) = true -> no_space s = true.
Proof.
  induction s as [|a s IH]; simpl; [reflexivity|].
  intros H. apply andb_true_iff in H as [Ha Hs]. apply negb_true_iff in Ha.
  now rewrite (lower_char_space _ Ha), IH.
Qed.

Lemma is_quit_iff (q : string) :
  is_quit q = true <-> In (lower q) ["quit"; "exit"; "q"].
Proof.
  unfold is_quit. rewrite existsb_exists. split.
  - intros (x & HIn & Hx). apply String.eqb_eq in Hx. now rewrite Hx.
  - intros HIn. exists (lower q). split; [exact HIn | apply String.eqb_refl].
Qed.

Lemma strip_core (ws1 core ws2 : string) :
  all_space ws1 = true -> all_space ws2 = true ->
  In (lower core) ["quit"; "exit"; "q"] ->
  strip (ws1 +++ core +++ ws2) = core.
Proof.
  intros H1 H2 HIn.
  assert (Hsolid : no_space core = true).
  { apply lower_no_space.
    destruct HIn as [<-|[<-|[<-|[]]]]; reflexivity. }
  unfold strip. rewrite (lstrip_spaces _ _ H1).
  destruct core as [|c core].
  { destruct HIn as [H|[H|[H|[]]]]; discriminate. }
  simpl in Hsolid. apply andb_true_iff in Hsolid as [Hc Hcore].
  assert (Hl : lstrip (String c core +++ ws2) = String c core +++ ws2).
  { simpl. apply negb_true_iff in Hc. now rewrite Hc. }
  rewrite Hl, (rstrip_spaces _ _ H2).
  apply rstrip_no_space. simpl. now rewrite Hc, Hcore.
Qed.

(** X14.  The lines that end the chat loop are exactly those made of a
    word that reads [quit], [exit] or [q] when put in lower case, with
    any whitespace before and after it and nothing else. *)
Theorem lines_that_quit (line : string) :
  is_quit (strip line) = true
  <-> exists ws1 core ws2,
        line = ws1 +++ core +++ ws2
        /\ all_space ws1 = true
        /\ all_space ws2 = true
        /\ In (lower core) ["quit"; "exit"; "q"].
Proof.
  split.
  - intros H. apply is_quit_iff in H.
    destruct (lstrip_split line) as (ws1 & H1 & E1).
    destruct (rstrip_split (lstrip line)) as (ws2 & H2 & E2).
    exists ws1, (strip line), ws2. repeat split; try assumption.
    unfold strip. now rewrite <- E2.
  - intros (ws1 & core & ws2 & -> & H1 & H2 & HIn).
    rewrite (strip_core _ _ _ H1 H2 HIn). now apply is_quit_iff.
Qed.

(** ** The chat loop *)

Lemma asked_queries_app (l1 l2 : list host_event) :
  asked_queries (l1 ++ l2) = asked_queries l1 ++ asked_queries l2.
Proof.
  apply flat_map_app.
Qed.

(** X12.  When the standard input holds a line that quits, after lines
    none of which does, the chat loop ends on reading that line, leaving
    the rest of the input unread: [process_query] has been called once for
    each line before it that was read without error, with the line
    stripped of surrounding whitespace (an empty line included), in the
    order typed, and not for the quitting line; the client object is
    unchanged. *)
Theorem quit_ends_the_chat {W : Type} (itp : Interp) (before : list (outcome string))
    (line : string) (rest : list (outcome string)) :
  forallb goes_on before = true ->
  is_quit (strip line) = true ->
  forall (fuel : nat) (a : driver W),
    List.length before < fuel ->
    exists a',
      chat_loop itp fuel (before ++ Ok line :: rest) a = Some (a', rest)
      /\ asked_queries (events a') = asked_queries (events a) ++ typed_queries before
      /\ List.length (filter is_read (events a'))
         = List.length (filter is_read (events a)) + S (List.length before)
      /\ client_of a' = client_of a.
Proof.
  intros Hgo Hquit.
  induction before as [|o before IH]; intros fuel a Hfuel.
  - destruct fuel as [|fuel]; [inversion Hfuel|].
    simpl. rewrite Hquit. eexists. split; [reflexivity|]. simpl.
    rewrite asked_queries_app, filter_app, length_app. simpl.
    rewrite !app_nil_r. repeat split. 
  - destruct fuel as [|fuel]; [inversion Hfuel|].
    simpl in Hgo. apply andb_true_iff in Hgo as [Ho Hgo].
    simpl in Hfuel. apply PeanoNat.lt_S_n in Hfuel.
    cbn [app chat_loop input]. destruct o as [l|e].
    + simpl in Ho. apply negb_true_iff in Ho. rewrite Ho.
      destruct (process_query itp (client_of (logged a (world_of a) (Read (Ok l))))
                  (strip l)
                  (initial_state (world_of (logged a (world_of a) (Read (Ok l))))))
        as [st' r].
      match goal with
      | |- context [chat_loop itp fuel _ ?a0] =>
          destruct (IH Hgo fuel a0 Hfuel) as (a' & Hrun & Hasked & Hread & Hclient)
      end.
      exists a'. split; [exact Hrun|].
      rewrite Hasked, Hread. simpl.
      rewrite !asked_queries_app, !filter_app, !length_app. simpl.
      rewrite app_nil_r, <- app_assoc. simpl.
      split; [reflexivity|]. split; [lia | exact Hclient].
    + match goal with
      | |- context [chat_loop itp fuel _ ?a0] =>
          destruct (IH Hgo fuel a0 Hfuel) as (a' & Hrun & Hasked & Hread & Hclient)
      end.
      exists a'. split; [exact Hrun|].
      rewrite Hasked, Hread. simpl.
      rewrite !asked_queries_app, !filter_app, !length_app. simpl.
      rewrite app_nil_r.
      split; [reflexivity|]. split; [lia | exact Hclient].
Qed.

(** X13.  The chat loop ends through a quit line only.  When no line of
    the standard input quits, the loop is still running after any number
    of iterations: once the input is exhausted, [input()] raises [EOFError]
    each time, the exception is caught, and the loop goes round again. *)
Theorem chat_without_quit_never_ends {W : Type} (itp : Interp) (fuel : nat) :
  forall (stdin : list (outcome string)) (a : driver W),
    forallb goes_on stdin = true ->
    chat_loop itp fuel stdin a = None.
Proof.
  induction fuel as [|fuel IH]; intros stdin a Hgo; [reflexivity|].
  destruct stdin as [|o stdin]; cbn [chat_loop input].
  - now apply IH.
  - simpl in Hgo. apply andb_true_iff in Hgo as [Ho Hgo].
    destruct o as [l|e]; [|now apply IH].
    simpl in Ho. apply negb_true_iff in Ho. rewrite Ho.
    destruct (process_query itp (client_of (logged a (world_of a) (Read (Ok l))))
                (strip l)
                (initial_state (world_of (logged a (world_of a) (Read (Ok l))))))
      as [st' r].
    now apply IH.
Qed.

(** ** Connecting to the server *)

(** X9.  [connect_to_server] refuses a script that does not exist, or
    whose name ends neither in [.py] nor in [.js], by raising before
    anything is started: no process is spawned, no session is opened, and
    the client and the world are as before.  Existence is checked first. *)
Theorem unusable_script_is_refused {W : Type} (host : Host W) (path : string)
    (a : driver W) :
  path_exists host path (world_of a) = false
  \/ (forall stem, path <> stem +++ ".py" /\ path <> stem +++ ".js") ->
  exists msg,
    connect_to_server host path a = (a, Raise (Raised msg))
    /\ (path_exists host path (world_of a) = false ->
        msg = "Server script not found: " +++ path)
    /\ (path_exists host path (world_of a) = true ->
        msg = "Server script must be a .py or .js file").
Proof.
  intros H. unfold connect_to_server.
  destruct (path_exists host path (world_of a)) eqn:He; simpl.
  - destruct H as [H|H]; [discriminate|].
    assert (Hpy : ends_with ".py" path = false).
    { destruct (ends_with ".py" path) eqn:E; [|reflexivity].
      apply ends_with_iff in E as [stem ->]. now destruct (H stem) as [[] _]. }
    assert (Hjs : ends_with ".js" path = false).
    { destruct (ends_with ".js" path) eqn:E; [|reflexivity].
      apply ends_with_iff in E as [stem ->]. now destruct (H stem) as [_ []]. }
    rewrite Hpy, Hjs. simpl. eexists. split; [reflexivity|]. split; [discriminate|].
    reflexivity.
  - eexists. split; [reflexivity|]. split; [reflexivity | discriminate].
Qed.

(** X10.  For a script that exists and whose name ends in [.py] or in
    [.js], the first thing [connect_to_server] does is to start the
    server, with the script path as its only argument and no environment:
    by [python] when the name ends in [.py], by [node] otherwise. *)
Theorem server_is_launched_by_extension {W : Type} (host : Host W) (path : string)
    (a : driver W) :
  path_exists host path (world_of a) = true ->
  (exists stem, path = stem +++ ".py" \/ path = stem +++ ".js") ->
  exists a' o server_params started rest,
    connect_to_server host path a = (a', o)
    /\ events a' = events a ++ Spawned server_params started :: rest
    /\ args server_params = [path]
    /\ env server_params = None
    /\ ((exists stem, path = stem +++ ".py") -> command server_params = "python")
    /\ ((forall stem, path <> stem +++ ".py") -> command server_params = "node").
Proof.
  intros He [stem Hext]. unfold connect_to_server. rewrite He. simpl.
  assert (Hany : ends_with ".py" path || ends_with ".js" path = true).
  { apply orb_true_iff.
    destruct Hext as [->| ->]; [left|right]; apply ends_with_iff; now exists stem. }
  rewrite Hany. simpl.
  set (server_params := {| command := if ends_with ".py" path then "python" else "node";
                           args := [path]; env := None |}).
  assert (Hcommand :
            ((exists stem, path = stem +++ ".py") -> command server_params = "python")
            /\ ((forall stem, path <> stem +++ ".py") -> command server_params = "node")).
  { simpl. split.
    - intros Hpy. apply ends_with_iff in Hpy. now rewrite Hpy.
    - intros Hno. destruct (ends_with ".py" path) eqn:E; [|reflexivity].
      apply ends_with_iff in E as [stem' E]. now destruct (Hno stem'). }
  destruct (stdio_client host server_params (world_of a)) as [w1 [u|e]].
  2:{ eexists _, _, server_params, _, []. split; [reflexivity|].
      split; [reflexivity|]. now repeat split; apply Hcommand. }
  destruct (open_session host w1) as [w2 [s|e]].
  2:{ eexists _, _, server_params, _, _. split; [reflexivity|]. simpl.
      rewrite <- app_assoc. split; [reflexivity|]. now repeat split; apply Hcommand. }
  destruct (initialize host s w2) as [w3 [| |e]].
  2,3: eexists _, _, server_params, _, _; (split; [reflexivity|]); simpl;
    rewrite <- !app_assoc; (split; [reflexivity|]); now repeat split; apply Hcommand.
  destruct (list_tools s w3) as [w4 [t|e]];
    eexists _, _, server_params, _, _; (split; [reflexivity|]); simpl;
    rewrite <- !app_assoc; (split; [reflexivity|]); now repeat split; apply Hcommand.
Qed.

(** X11.  [connect_to_server] returns normally exactly when the server
    started, the session opened, the handshake completed and the tools
    were listed, in this order.  The session of the client is set as
    soon as the session is opened, and stays set when the handshake then
    times out or fails: a timeout is raised as
    [Failed to initialize session within timeout period] with the session
    in place. *)
Theorem connection_outcome {W : Type} (host : Host W) (path : string)
    (a a' : driver W) (o : outcome unit) :
  session (client_of a) = None ->
  events a = [] ->
  connect_to_server host path a = (a', o) ->
  (o = Ok tt
   <-> exists server_params listed,
         events a' = [Spawned server_params (Ok tt); SessionOpened None;
                      Initializing Initialized; ToolsListed (Ok listed)])
  /\ (session (client_of a') <> None <-> In (SessionOpened None) (events a'))
  /\ (In (Initializing TimedOut) (events a') ->
      o = Raise (Raised "Failed to initialize session within timeout period")
      /\ session (client_of a') <> None).
Proof.
  intros Hnone Hfresh. unfold connect_to_server.
  destruct (negb (path_exists host path (world_of a))).
  { intros [= <- <-]. rewrite Hfresh, Hnone. split; [|split].
    - split; [discriminate | intros (? & ? & ?); discriminate].
    - split; [now intros [] | intros []].
    - intros []. }
  destruct (negb (ends_with ".py" path || ends_with ".js" path)).
  { intros [= <- <-]. rewrite Hfresh, Hnone. split; [|split].
    - split; [discriminate | intros (? & ? & ?); discriminate].
    - split; [now intros [] | intros []].
    - intros []. }
  set (server_params := {| command := if ends_with ".py" path then "python" else "node";
                           args := [path]; env := None |}).
  destruct (stdio_client host server_params (world_of a)) as [w1 [[]|e]].
  2:{ intros [= <- <-]. simpl. rewrite Hfresh, Hnone. simpl. split; [|split].
      - split; [discriminate | intros (? & ? & ?); discriminate].
      - split; [now intros [] | intros [|[]]; discriminate].
      - intros [|[]]; discriminate. }
  destruct (open_session host w1) as [w2 [s|e]].
  2:{ intros [= <- <-]. simpl. rewrite Hfresh, Hnone. simpl. split; [|split].
      - split; [discriminate | intros (? & ? & ?); discriminate].
      - split; [now intros [] | intros [|[|[]]]; discriminate].
      - intros [|[|[]]]; discriminate. }
  destruct (initialize host s w2) as [w3 [| |e]].
  - destruct (list_tools s w3) as [w4 [t|e]];
      intros [= <- <-]; simpl; rewrite Hfresh; simpl; (split; [|split]).
    + split; [intros _; now exists server_params, t | reflexivity].
    + split; [intros _; right; now left | discriminate].
    + intros [|[|[|[|[]]]]]; discriminate.
    + split; [discriminate | intros (? & ? & ?); discriminate].
    + split; [intros _; right; now left | discriminate].
    + intros [|[|[|[|[]]]]]; discriminate.
  - intros [= <- <-]. simpl. rewrite Hfresh. simpl. split; [|split].
    + split; [discriminate | intros (? & ? & ?); discriminate].
    + split; [intros _; right; now left | discriminate].
    + intros _. split; [reflexivity | discriminate].
  - intros [= <- <-]. simpl. rewrite Hfresh. simpl. split; [|split].
    + split; [discriminate | intros (? & ? & ?); discriminate].
    + split; [intros _; right; now left | discriminate].
    + intros [|[|[|[]]]]; discriminate.
Qed.

(** ** Shutting down *)

Lemma cleanup_run {W : Type} (host : Host W) (a : driver W) :
  exists a',
    cleanup host a = (a', Ok tt)
    /\ client_of a' = client_of a
    /\ ((exists e, events a' = events a ++ [StackClosed (Raise e)])
        \/ (exists closed, events a' = events a ++ [StackClosed (Ok tt); HttpClosed closed])).
Proof.
  unfold cleanup, cleanup_try.
  destruct (exit_stack_aclose host (world_of a)) as [w1 [[]|e]].
  - destruct (http_client_aclose host w1) as [w2 [[]|e]];
      eexists; (split; [reflexivity|]); (split; [reflexivity|]); right;
      eexists; simpl; now rewrite <- app_assoc.
  - eexists. split; [reflexivity|]. split; [reflexivity|]. left. now exists e.
Qed.

(** X15.  [cleanup] never raises.  It closes the exit stack first, and
    closes the HTTP client only when that succeeded: when closing the exit
    stack raises, the HTTP client is left open. *)
Theorem cleanup_never_raises {W : Type} (host : Host W) (a : driver W) :
  exists a',
    cleanup host a = (a', Ok tt)
    /\ client_of a' = client_of a
    /\ ((exists e, events a' = events a ++ [StackClosed (Raise e)])
        \/ (exists closed, events a' = events a ++ [StackClosed (Ok tt); HttpClosed closed])).
Proof.
  destruct (cleanup_run host a) as (a' & Hrun & Hclient & Hevents).
  exists a'. split; [exact Hrun|]. split; [exact Hclient|].
  destruct Hevents as [[e He]|[closed Hc]]; [left; now exists e | right; now exists closed].
Qed.

(** ** The program *)

Lemma connect_events {W : Type} (host : Host W) (path : string) (a a' : driver W)
    (o : outcome unit) :
  connect_to_server host path a = (a', o) ->
  exists evs,
    events a' = events a ++ evs
    /\ forallb (fun ev => negb (is_stack_closed ev)) evs = true
    /\ filter is_read evs = [].
Proof.
  unfold connect_to_server.
  destruct (negb (path_exists host path (world_of a))).
  { intros [= <- _]. exists []. now rewrite app_nil_r. }
  destruct (negb (ends_with ".py" path || ends_with ".js" path)).
  { intros [= <- _]. exists []. now rewrite app_nil_r. }
  destruct (stdio_client host _ (world_of a)) as [w1 [u|e]].
  2:{ intros [= <- _]. now eexists [_]. }
  destruct (open_session host w1) as [w2 [s|e]].
  2:{ intros [= <- _]. eexists [_; _]. simpl. now rewrite <- app_assoc. }
  destruct (initialize host s w2) as [w3 [| |e]].
  2,3: intros [= <- _]; eexists [_; _; _]; simpl; now rewrite <- !app_assoc.
  destruct (list_tools s w3) as [w4 [t|e]];
    intros [= <- _]; eexists [_; _; _; _]; simpl; now rewrite <- !app_assoc.
Qed.

Lemma chat_events {W : Type} (itp : Interp) (fuel : nat) :
  forall (stdin stdin' : list (outcome string)) (a a' : driver W),
    chat_loop itp fuel stdin a = Some (a', stdin') ->
    exists evs,
      events a' = events a ++ evs
      /\ forallb (fun ev => negb (is_stack_closed ev)) evs = true.
Proof.
  induction fuel as [|fuel IH]; intros stdin stdin' a a' Hrun; [discriminate|].
  cbn [chat_loop] in Hrun.
  destruct (input stdin) as [[l|e] rest].
  - destruct (is_quit (strip l)).
    + injection Hrun as <- _. now eexists [_].
    + destruct (process_query itp (client_of (logged a (world_of a) (Read (Ok l))))
                  (strip l)
                  (initial_state (world_of (logged a (world_of a) (Read (Ok l))))))
        as [st' r].
      destruct (IH _ _ _ _ Hrun) as (evs & He & Hn).
      exists (Read (Ok l) :: Asked (strip l) (calls st') r :: evs).
      split; [|exact Hn]. rewrite He. simpl. now rewrite <- !app_assoc.
  - destruct (IH _ _ _ _ Hrun) as (evs & He & Hn).
    exists (Read (Raise e) :: evs).
    split; [|exact Hn]. rewrite He. simpl. now rewrite <- !app_assoc.
Qed.

(** X16.  A run of [main] that ends either was given no script path,
    and then exits with status 1 having touched nothing, or closes the
    exit stack exactly once, after everything else it did, followed at
    most by the closing of the HTTP client.  This holds whether the
    connection succeeded or not; when connecting raised, the exception
    leaves [main] after the cleanup, and no line of input was read. *)
Theorem main_cleans_up_last {W : Type} (itp : Interp) (host : Host W)
    (http : AsyncClient W) (fuel : nat) (argv : list string)
    (stdin stdin' : list (outcome string)) (w w' : W) (evs : list host_event)
    (ex : exit) :
  main itp host http fuel argv stdin w = Some (w', evs, stdin', ex) ->
  (List.length argv < 2
   /\ ex = SystemExit 1 /\ evs = [] /\ w' = w /\ stdin' = stdin)
  \/ (2 <= List.length argv
      /\ exists before closed after,
           evs = before ++ StackClosed closed :: after
           /\ forallb (fun ev => negb (is_stack_closed ev)) (before ++ after) = true
           /\ (after = [] \/ exists c, after = [HttpClosed c])
           /\ (ex = Returned
               \/ exists e, ex = Uncaught e /\ filter is_read evs = []
                            /\ stdin' = stdin)).
Proof.
  unfold main. destruct argv as [|prog [|path more]].
  - intros [= <- <- <- <-]. left. simpl. repeat split. lia.
  - intros [= <- <- <- <-]. left. simpl. repeat split. lia.
  - intros Hrun. right. split; [simpl; lia|].
    destruct (connect_to_server host path (new_client http w)) as [a1 o] eqn:Hconnect.
    destruct (connect_events _ _ _ Hconnect) as (evs1 & He1 & Hn1 & Hr1).
    simpl in He1.
    destruct o as [u|e].
    + destruct (chat_loop itp fuel stdin a1) as [[a2 rest]|] eqn:Hchat; [|discriminate].
      destruct (chat_events _ _ _ _ Hchat) as (evs2 & He2 & Hn2).
      destruct (cleanup_run host a2) as (a3 & Hclean & _ & Hevents).
      rewrite Hclean in Hrun. injection Hrun as <- <- <- <-.
      destruct Hevents as [[e He]|[closed Hc]].
      * exists (evs1 ++ evs2), (Raise e), []. rewrite He, He2, He1, app_nil_r.
        split; [reflexivity|]. rewrite forallb_app, Hn1, Hn2.
        split; [reflexivity|]. split; [now left | now left].
      * exists (evs1 ++ evs2), (Ok tt), [HttpClosed closed]. rewrite Hc, He2, He1.
        split; [reflexivity|]. rewrite !forallb_app, Hn1, Hn2.
        split; [reflexivity|]. split; [right; now exists closed | now left].
    + destruct (cleanup_run host a1) as (a3 & Hclean & _ & Hevents).
      rewrite Hclean in Hrun. injection Hrun as <- <- <- <-.
      destruct Hevents as [[e' He]|[closed Hc]].
      * exists evs1, (Raise e'), []. rewrite He, He1, app_nil_r.
        split; [reflexivity|]. split; [exact Hn1|]. split; [now left|].
        right. exists e. rewrite filter_app, Hr1. now repeat split.
      * exists evs1, (Ok tt), [HttpClosed closed]. rewrite Hc, He1.
        split; [reflexivity|]. rewrite forallb_app, Hn1.
        split; [reflexivity|]. split; [right; now exists closed|].
        right. exists e. rewrite filter_app, Hr1. now repeat split.
Qed.

(** ** The further properties on the recorded exchanges *)

Lemma catalog_failure_is_reported_witness :
  process_query cpython broken_client "hello" (initial_state unreachable)
  = ({| world := unreachable; calls := [ListTools (Raise (Raised "Connection closed"))];
        messages := [user_message "hello"]; final_text := [] |},
     Ok "Error processing query: Connection closed").
Proof.
  pose proof (@catalog_failure_is_reported Script cpython broken_client broken_session
                "hello" unreachable unreachable (Raised "Connection closed")
                eq_refl eq_refl) as H.
  cbv zeta in H. destruct H as (Hout & Hcalls & _).
  destruct (process_query cpython broken_client "hello" (initial_state unreachable))
    as [st' o] eqn:E.
  simpl in Hout, Hcalls. subst o. vm_compute in E. injection E as <-. reflexivity.
Defined.

Lemma transport_failure_is_reported_witness :
  snd (run client unreachable "hello")
  = Ok "Error processing query: All connection attempts failed"
  /\ snd (run client (answering not_json [] []) "hello")
     = Ok "Error processing query: JSONDecodeError".
Proof.
  split.
  - exact (proj1 (@transport_failure_is_reported Script cpython client the_session
                    "hello" unreachable unreachable unreachable the_tools
                    (Raise (Raised "All connection attempts failed"))
                    (Raised "All connection attempts failed")
                    eq_refl eq_refl eq_refl (or_introl eq_refl))).
  - exact (proj1 (@transport_failure_is_reported Script cpython client the_session
                    "hello" (answering not_json [] []) (answering not_json [] [])
                    (answered (answering not_json [] [])) the_tools
                    (Ok not_json) (Raised "JSONDecodeError")
                    eq_refl eq_refl eq_refl
                    (or_intror (ex_intro _ not_json (conj eq_refl (conj eq_refl eq_refl)))))).
Defined.

Lemma malformed_tool_call_aborts_witness :
  exists e,
    snd (run client missing_id_script "hello")
    = Ok ("Error processing query: " +++ exn_str cpython e)
    /\ tool_invocations (calls (fst (run client missing_id_script "hello")))
       = [(VStr "add", VDict [("x", VInt 1)])]
    /\ List.length (followups (calls (fst (run client missing_id_script "hello")))) = 1.
Proof.
  destruct (@malformed_tool_call_aborts Script cpython client the_session
              missing_id_script missing_id_script (answered missing_id_script)
              "hello" the_tools missing_id (message_of missing_id)
              eq_refl eq_refl eq_refl eq_refl eq_refl
              [nth 0 (tool_calls_of missing_id) VNone]
              [nth 2 (tool_calls_of missing_id) VNone]
              (nth 1 (tool_calls_of missing_id) VNone)
              eq_refl eq_refl eq_refl)
    as (e & results & Hout & Hinv & Hlen & _).
  exists e. split; [exact Hout|]. split; [|exact Hlen].
  unfold run. rewrite Hinv. reflexivity.
Defined.

Lemma uniterable_tool_calls_abort_witness :
  snd (run client (answering null_tool_calls [] []) "hello")
  = Ok "Error processing query: 'NoneType' object is not iterable".
Proof.
  exact (proj1 (@uniterable_tool_calls_abort Script cpython client the_session
                  (answering null_tool_calls [] []) (answering null_tool_calls [] [])
                  (answered (answering null_tool_calls [] [])) "hello" the_tools
                  null_tool_calls (message_of null_tool_calls)
                  eq_refl eq_refl eq_refl eq_refl eq_refl
                  VNone (NotIterable VNone) eq_refl eq_refl)).
Defined.

Lemma non_text_content_loses_output_witness :
  snd (run client content_in_parts_script "hello")
  = Ok "Error processing query: sequence item 1: expected str instance, list found"
  /\ tool_invocations (calls (fst (run client content_in_parts_script "hello")))
     = [(VStr "add", VDict [("x", VInt 1)])].
Proof.
  destruct (@non_text_content_loses_output Script cpython client the_session
              content_in_parts_script content_in_parts_script
              (answered content_in_parts_script) "hello" the_tools one_call
              (message_of one_call) eq_refl eq_refl eq_refl eq_refl eq_refl
              (tool_calls_of one_call) eq_refl eq_refl eq_refl)
    as (i & v & Hnth & _ & _ & Hout & Hinv & _).
  split; [|unfold run; rewrite Hinv; reflexivity].
  destruct i as [|[|i]]; vm_compute in Hnth; try discriminate.
  - injection Hnth as <-. exact Hout.
  - destruct i; discriminate.
Defined.

Lemma one_catalog_per_query_witness :
  Forall (fun ev => match ev with
                    | Post url p _ =>
                        url = "/chat/completions"
                        /\ getitem p "tools" = Ok (VList (catalog_entries the_tools))
                    | _ => True
                    end)
    (calls (fst (process_query cpython client "hello"
                   (initial_state three_calls_script)))).
Proof.
  pose proof (@one_catalog_per_query Script cpython client the_session
                three_calls_script three_calls_script (answered three_calls_script)
                "hello" the_tools three_calls (message_of three_calls)
                (tool_calls_of three_calls)
                eq_refl eq_refl eq_refl eq_refl eq_refl eq_refl eq_refl) as H.
  cbv zeta in H. destruct H as (_ & _ & Hposts).
  apply Forall_forall. intros [o|n a o|url p o] HIn; [exact I | exact I |].
  exact (Hposts url p o HIn).
Defined.

Lemma requests_replay_history_witness :
  exists results,
    List.length results = 3
    /\ map (fun po => sent_messages (fst po))
         (posts (calls (fst (run client three_calls_script "hello"))))
       = map (fun k => history "hello"
                         (firstn k (combine (tool_calls_of three_calls) results)))
           [0; 1; 2; 3].
Proof.
  destruct (@requests_replay_history Script cpython client the_session
              three_calls_script three_calls_script (answered three_calls_script)
              "hello" the_tools three_calls (message_of three_calls)
              (tool_calls_of three_calls)
              eq_refl eq_refl eq_refl eq_refl eq_refl eq_refl eq_refl)
    as (results & Hlen & _ & Hsent).
  exists results. split; [exact Hlen | exact Hsent].
Defined.

Lemma unusable_script_is_refused_witness :
  connect_to_server (scripted_host [] Initialized) "server.py"
    (new_client scripted_http unreachable)
  = (new_client scripted_http unreachable,
     Raise (Raised "Server script not found: server.py")).
Proof.
  destruct (@unusable_script_is_refused Script (scripted_host [] Initialized)
              "server.py" (new_client scripted_http unreachable) (or_introl eq_refl))
    as (msg & Hrun & Hmissing & _).
  rewrite Hrun, (Hmissing eq_refl). reflexivity.
Defined.

Lemma server_is_launched_by_extension_witness :
  exists a' o started rest,
    connect_to_server (scripted_host ["server.js"] Initialized) "server.js"
      (new_client scripted_http unreachable) = (a', o)
    /\ events a'
       = Spawned {| command := "node"; args := ["server.js"]; env := None |} started
         :: rest.
Proof.
  destruct (@server_is_launched_by_extension Script
              (scripted_host ["server.js"] Initialized) "server.js"
              (new_client scripted_http unreachable) eq_refl
              (ex_intro _ "server" (or_intror eq_refl)))
    as (a' & o & server_params & started & rest & Hrun & Hev & Hargs & Henv & _ & Hnode).
  exists a', o, started, rest. split; [exact Hrun|].
  rewrite Hev. simpl. destruct server_params as [c l v]. simpl in *.
  rewrite Hargs, Henv, Hnode; [reflexivity|].
  intros stem H.
  assert (E : ends_with ".py" "server.js" = true)
    by (apply ends_with_iff; now exists stem).
  vm_compute in E. discriminate.
Defined.

Lemma connection_outcome_witness :
  snd (connect_to_server (scripted_host ["server.py"] TimedOut) "server.py"
         (new_client scripted_http unreachable))
  = Raise (Raised "Failed to initialize session within timeout period")
  /\ session (client_of (fst (connect_to_server (scripted_host ["server.py"] TimedOut)
                                "server.py" (new_client scripted_http unreachable))))
     <> None.
Proof.
  apply (proj2 (proj2
           (connection_outcome (scripted_host ["server.py"] TimedOut) "server.py"
              (new_client scripted_http unreachable)
              (a' := fst (connect_to_server (scripted_host ["server.py"] TimedOut)
                            "server.py" (new_client scripted_http unreachable)))
              (o := snd (connect_to_server (scripted_host ["server.py"] TimedOut)
                           "server.py" (new_client scripted_http unreachable)))
              eq_refl eq_refl eq_refl))).
  vm_compute. right. right. left. reflexivity.
Defined.

Lemma quit_ends_the_chat_witness :
  exists a',
    chat_loop cpython 5 keyboard (chatting (answering plain_answer [] []))
    = Some (a', [Ok "never read"])
    /\ asked_queries (events a') = ["hello"].
Proof.
  destruct (@quit_ends_the_chat Script cpython
              [Ok "  hello ";
               Raise (Raised "'utf-8' codec can't decode byte 0xff in position 0: invalid start byte")]
              " Quit " [Ok "never read"] eq_refl eq_refl 5
              (chatting (answering plain_answer [] [])) ltac:(simpl; lia))
    as (a' & Hrun & Hasked & _).
  exists a'. split; [exact Hrun | exact Hasked].
Defined.

Lemma chat_without_quit_never_ends_witness :
  chat_loop cpython 50 [Ok "hello"] (chatting (answering plain_answer [] [])) = None.
Proof.
  exact (chat_without_quit_never_ends cpython 50 [Ok "hello"]
           (chatting (answering plain_answer [] [])) eq_refl).
Defined.

Lemma main_cleans_up_last_witness :
  exists w' evs stdin' e before closed after,
    main cpython (scripted_host ["server.py"] TimedOut) scripted_http 5
      ["client.py"; "server.py"] keyboard unreachable
    = Some (w', evs, stdin', Uncaught e)
    /\ stdin' = keyboard
    /\ evs = before ++ StackClosed closed :: after.
Proof.
  destruct (main cpython (scripted_host ["server.py"] TimedOut) scripted_http 5
              ["client.py"; "server.py"] keyboard unreachable)
    as [[[[w' evs] stdin'] ex]|] eqn:E; [|vm_compute in E; discriminate].
  destruct (main_cleans_up_last _ _ _ _ _ _ _ E)
    as [(Hlen & _)|(_ & before & closed & after & Hevs & _ & _ & Hex)].
  - simpl in Hlen. lia.
  - destruct Hex as [Hex|(e & Hex & _ & Hin)].
    + vm_compute in E. injection E as _ _ _ <-. discriminate.
    + exists w', evs, stdin', e, before, closed, after.
      split; [now rewrite Hex|]. split; [exact Hin | exact Hevs].
Defined.
